(** * BBMax: put-option screener for YieldMax ETFs

    Shallow embedding of the opportunity pipeline of [BBMaxBeta.py]
    (fetch_dividends_from_yfinance, analyze_symbol, the analyze-all branch)
    and of its sibling [BBMax.py] (fetch_dividend_data, fetch_put_option_data,
    the budget lines of main and its select-all branch).

    Modelling conventions.
    - Calendar dates (normalized, tz-naive pandas Timestamps) are day numbers
      [Z] counted from 1970-01-01; [Timedelta(days=k)] is [+ k].
    - Prices, amounts and percentages are rationals [Q]; a float64 cell that
      may hold NaN is an [option Q] ([None] = NaN).  Every comparison with
      NaN is false, as in pandas.
    - A DataFrame is the list of its rows in index order. *)

From Stdlib Require Import ZArith QArith Qround List Sorting.Sorted
  Sorting.Permutation Lia String Bool.
Import ListNotations.
Open Scope Z_scope.

(** ** Calendar dates *)

(** Day number of the proleptic Gregorian date [y-m-d]; the inverse of the
    calendar arithmetic pandas performs on normalized Timestamps. *)
Definition days_from_civil (y m d : Z) : Z :=
  let y' := if m <=? 2 then y - 1 else y in
  let era := y' / 400 in
  let yoe := y' - era * 400 in
  let mp := (m + 9) mod 12 in
  let doy := (153 * mp + 2) / 5 + d - 1 in
  let doe := yoe * 365 + yoe / 4 - yoe / 100 + doy in
  era * 146097 + doe - 719468.

(** ** Stable insertion sort

    [DataFrame.sort_values] with several keys goes through pandas'
    [lexsort_indexer], which is a stable sort: rows with equal keys keep
    their index order.  [before le x y] means that [x] may be placed before
    [y]. *)

Section StableSort.
Variable A : Type.
Variable le : A -> A -> bool.

Fixpoint insert (x : A) (l : list A) : list A :=
  match l with
  | [] => [x]
  | y :: l' => if le x y then x :: y :: l' else y :: insert x l'
  end.

Fixpoint isort (l : list A) : list A :=
  match l with
  | [] => []
  | x :: l' => insert x (isort l')
  end.

End StableSort.

Arguments insert {A} le x l.
Arguments isort {A} le l.

(** ** Market data shared by both scripts *)

(** One row of [ticker.option_chain(exp).puts]: float64 cells. *)
Record quote := { strike : option Q; lastPrice : option Q }.

(** [ticker.options] with the puts of each expiration (a normalized date). *)
Definition chain := list (Z * list quote).

(** NaN-aware float comparisons: [x >= t] and [x <= t]. *)
Definition qge_opt (x : option Q) (t : Q) : bool :=
  match x with Some v => Qle_bool t v | None => false end.
Definition qle_opt (x : option Q) (t : Q) : bool :=
  match x with Some v => Qle_bool v t | None => false end.

(** [Series.notna] on one cell. *)
Definition notna {A} (x : option A) : bool :=
  match x with Some _ => true | None => false end.

Fixpoint filter_map {A B} (f : A -> option B) (l : list A) : list B :=
  match l with
  | [] => []
  | x :: l' => match f x with Some y => y :: filter_map f l' | None => filter_map f l' end
  end.

(** ** BBMaxBeta.py *)
Module Beta.

Record params := {
  num_dividends : nat;
  future_periods : Z;
  percentage_for_single_premium : Z;
  strike_price_relative : Z
}.

(** [Series.iloc[-n:]]: the last [n] entries ([-0] is [0]: all of them). *)
Definition iloc_last {A} (n : nat) (l : list A) : list A :=
  if Nat.eqb n 0 then l else skipn (List.length l - n) l.

Definition mean (xs : list Q) : Q :=
  (fold_right Qplus 0 xs / inject_Z (Z.of_nat (List.length xs)))%Q.

(** [fetch_dividends_from_yfinance]: the series is [ticker.dividends] as
    supplied, a list of (date, amount); the result is
    [(avg_dividend, last_dividend_date)]. *)
Definition fetch_dividends_from_yfinance (dividends : list (Z * Q)) (n : nat)
  : Q * option Z :=
  match dividends with
  | [] => (0%Q, None)
  | d :: _ =>
      (mean (map snd (iloc_last n dividends)), Some (fst (last dividends d)))
  end.

(** [fetch_put_options]: one row per put, with its normalized expiration. *)
Definition fetch_put_options (c : chain) : list (Z * quote) :=
  flat_map (fun '(e, qs) => map (fun q => (e, q)) qs) c.

Definition max_budget_for_single_put_premium (avg : Q) (pct : Z) : Q :=
  (avg * (inject_Z pct / inject_Z 100))%Q.

Definition max_budget_for_extended_put_premium (avg : Q) (pct periods : Z) : Q :=
  (max_budget_for_single_put_premium avg pct * inject_Z periods)%Q.

(** Python's [int(x)] truncates toward zero. *)
Definition py_int (x : Q) : Z := Z.quot (Qnum x) (Zpos (Qden x)).

Definition strike_price_threshold (current_price : Q) (rel : Z) : Z :=
  Z.max 1 (py_int current_price - rel).

(** [filtered_by_strike] then [filtered_by_last_price]. *)
Definition budget_filter (thr : Z) (ext : Q) (puts : list (Z * quote))
  : list (Z * quote) :=
  filter (fun '(_, q) => qle_opt (lastPrice q) ext)
    (filter (fun '(_, q) => qge_opt (strike q) (inject_Z thr)) puts).

(** A row of [filtered_puts] after the column selection and renaming, with
    [Expiration Date] passed through [pd.to_datetime(errors='coerce')] and
    [Last Price] through [pd.to_numeric(errors='coerce')]: either may be
    missing (NaT / NaN). *)
Record frow := {
  f_exp : option Z; f_strike : option Q; f_last : option Q; f_symbol : string
}.

Definition to_frame (symbol : string) (p : Z * quote) : frow :=
  {| f_exp := Some (fst p); f_strike := strike (snd p);
     f_last := lastPrice (snd p); f_symbol := symbol |}.

(** A row that survived [dropna(subset=['Last Price', 'Expiration Date'])]. *)
Record crow := { exp : Z; c_strike : option Q; last_price : Q; symbol : string }.

Definition dropna (r : frow) : option crow :=
  match f_exp r, f_last r with
  | Some e, Some l => Some {| exp := e; c_strike := f_strike r; last_price := l;
                              symbol := f_symbol r |}
  | _, _ => None
  end.

(** [filtered_puts] with the [Symbol] column and the coerced columns. *)
Definition filtered_puts (sym : string) (thr : Z) (ext : Q) (puts : list (Z * quote))
  : list frow :=
  map (to_frame sym) (budget_filter thr ext puts).

(** The rows handed to [sort_values]. *)
Definition candidates (sym : string) (thr : Z) (ext : Q) (puts : list (Z * quote))
  : list crow :=
  filter_map dropna (filtered_puts sym thr ext puts).

(** [sort_values(by=['Expiration Date', 'Last Price'],
    ascending=[False, False])]: [a] may precede [b]. *)
Definition before (a b : crow) : bool :=
  (exp b <? exp a) || ((exp a =? exp b) && Qle_bool (last_price b) (last_price a)).

(** The projection loop of [analyze_symbol], with the cadence [cad] that
    the script fixes at 28 days:
<<
    next = last + cad
    if today >= next:
        while next <= today: next += cad
    highlight_date = next + cad * (future_periods - 1)
>>
    For [cad >= 1] the loop exits within [today - last + 1] rounds, the
    fuel given to it. *)
Fixpoint advance (fuel : nat) (cad today n : Z) : Z :=
  match fuel with
  | O => n
  | S f => if n <=? today then advance f cad today (n + cad) else n
  end.

Definition next_expected_dividend_date (cad last_div today : Z) : Z :=
  let n0 := last_div + cad in
  if n0 <=? today then advance (S (Z.to_nat (today - last_div))) cad today n0
  else n0.

Definition highlight_date (cad last_div today periods : Z) : Z :=
  next_expected_dividend_date cad last_div today + cad * (periods - 1).

(** An output row: the contract and its [Highlight] mark. *)
Definition orow := (crow * bool)%type.

(** [analyze_symbol symbol]: [None] for [(None, None)].  The inputs are the
    dividend series, the last close of [ticker.history(period="1d")] and
    the put chain of the symbol, and today's date.  The close is [None]
    when the history is empty ([iloc[-1]] raises IndexError) or the close
    is NaN ([int(nan)] raises ValueError): the [except] branch returns
    [(None, None)]. *)
Definition analyze_symbol (sym : string) (p : params) (dividends : list (Z * Q))
  (current_price : option Q) (ch : chain) (today : Z) : option (list orow) :=
  let '(avg, ldd) := fetch_dividends_from_yfinance dividends (num_dividends p) in
  if Qeq_bool avg 0 then None else
  let ext := max_budget_for_extended_put_premium avg
               (percentage_for_single_premium p) (future_periods p) in
  match current_price with
  | None => None
  | Some current_price =>
  let thr := strike_price_threshold current_price (strike_price_relative p) in
  match fetch_put_options ch with
  | [] => None
  | puts =>
    match budget_filter thr ext puts with
    | [] => None
    | _ =>
      let sorted_puts := isort before (candidates sym thr ext puts) in
      match ldd with
      | None => None
      | Some ld =>
          let hd := highlight_date 28 ld today (future_periods p) in
          Some (map (fun r => (r, hd <=? exp r)) sorted_puts)
      end
    end
  end
  end.

(** The data the feed supplies for one symbol ([fd_close]: [None] for an
    empty or NaN close). *)
Record feed_data := {
  fd_dividends : list (Z * Q); fd_close : option Q; fd_chain : chain
}.

Definition YIELDMAX_GROUPS : list (string * list string) :=
  [("Group A", ["TSLY"; "CRSH"; "GOOY"; "YBIT"; "OARK"; "XOMO"; "SNOY"; "TSMY"; "FEAT"; "FIVY"]);
   ("Group B", ["NVDY"; "DIPS"; "FBY"; "GDXY"; "BABO"; "JPMO"; "MRNY"; "PLTY"; "MARO"]);
   ("Group C", ["CONY"; "FIAT"; "MSFO"; "AMDY"; "NFLY"; "ABNY"; "PYPY"; "ULTY"]);
   ("Group D", ["MSTY"; "YQQQ"; "AMZY"; "APLY"; "AIYY"; "DISO"; "SQY"; "SMCY"])]%string.

Definition all_symbols : list string := flat_map snd YIELDMAX_GROUPS.

Definition highlighted_rows (rows : list orow) : list orow := filter snd rows.

(** The loop filling [all_results]. *)
Fixpoint collect (results : list (option (list orow))) : list (list orow) :=
  match results with
  | [] => []
  | None :: rs => collect rs
  | Some rows :: rs =>
      match highlighted_rows rows with
      | [] => collect rs
      | h => h :: collect rs
      end
  end.

Definition before_o (a b : orow) : bool := before (fst a) (fst b).

(** The analyze-all branch: the consolidated table, [[]] when nothing is
    highlighted (the warning branch). *)
Definition analyze_all (p : params) (feed : string -> feed_data) (today : Z)
  (syms : list string) : list orow :=
  let results := map (fun s => analyze_symbol s p (fd_dividends (feed s))
                         (fd_close (feed s)) (fd_chain (feed s)) today) syms in
  match collect results with
  | [] => []
  | all_results => isort before_o (List.concat all_results)
  end.

(** The highlighted rows a symbol contributes to the consolidated table. *)
Definition symbol_highlights (p : params) (feed : string -> feed_data) (today : Z)
  (s : string) : list orow :=
  match analyze_symbol s p (fd_dividends (feed s)) (fd_close (feed s))
          (fd_chain (feed s)) today with
  | None => []
  | Some rows => highlighted_rows rows
  end.

End Beta.

(** ** BBMax.py *)
Module BBMax.

(** Dividend dates here are tz-aware Timestamps, kept as instants: seconds
    since the epoch. *)
Definition seconds_per_day : Z := 86400.

(** [dividends.sort_index(ascending=False)]: most recent first.  pandas
    leaves the order of equal dates unspecified; the embedding keeps them
    in input order. *)
Definition date_desc (a b : Z * Q) : bool := fst b <=? fst a.

(** [fetch_dividend_data]: [None] for [(None, None, None, None)], else
    [(total_dividends, num_occurrences, last_dividend_date, avg_dividend)]. *)
Definition fetch_dividend_data (dividends : list (Z * Q)) (n : nat)
  : option (Q * nat * Z * Q) :=
  match dividends with
  | [] => None
  | _ =>
    let last_n_dividends := firstn n (isort date_desc dividends) in
    match last_n_dividends with
    | [] => None
    | d :: _ =>
      let total_dividends := fold_right Qplus 0%Q (map snd last_n_dividends) in
      let num_occurrences := List.length last_n_dividends in
      Some (total_dividends, num_occurrences, fst d,
            (total_dividends / inject_Z (Z.of_nat num_occurrences))%Q)
    end
  end.

(** [premium_budget = avg_dividend * (budget_percentage / 100) * multiplier]. *)
Definition premium_budget (avg : Q) (pct multiplier : Z) : Q :=
  (avg * (inject_Z pct / inject_Z 100) * inject_Z multiplier)%Q.

(** [np.floor(day_close_price) - strike_adjustment]. *)
Definition strike_price_threshold (day_close_price : Q) (adj : Z) : Z :=
  Qfloor day_close_price - adj.

(** A row of the [opportunities] frame. *)
Record brow := {
  b_exp : Z; b_strike : option Q; b_last : option Q; b_symbol : string;
  b_highlight : bool; b_occurrences : Z; b_estimated : Q
}.

(** [fetch_put_option_data]: [exp] is a day number, [pd.Timestamp(exp,
    tz=UTC)] its midnight instant; [.days] of a Timedelta floors. *)
Definition fetch_put_option_data (sym : string) (budget : Q) (thr : Z) (avg : Q)
  (last_dividend_date : Z) (pct freq : Z) (ch : chain) : list brow :=
  flat_map (fun '(e, puts) =>
    map (fun q =>
      let total_days := (e * seconds_per_day - last_dividend_date) / seconds_per_day in
      let future_occurrences := total_days / freq in
      let estimated_dividends := (inject_Z future_occurrences * avg)%Q in
      let estimated_future_budget :=
        (estimated_dividends * (inject_Z pct / inject_Z 100))%Q in
      {| b_exp := e; b_strike := strike q; b_last := lastPrice q; b_symbol := sym;
         b_highlight := qle_opt (lastPrice q) estimated_future_budget;
         b_occurrences := future_occurrences; b_estimated := estimated_dividends |})
    (filter (fun q => qge_opt (strike q) (inject_Z thr) && qle_opt (lastPrice q) budget)
       puts)) ch.

(** [sort_values(by=["Expiration Date", "Strike Price"],
    ascending=[False, False])], NaN strikes last. *)
Definition strike_desc (x y : option Q) : bool :=
  match x, y with
  | Some a, Some b => Qle_bool b a
  | Some _, None | None, None => true
  | None, Some _ => false
  end.

Definition before_b (a b : brow) : bool :=
  (b_exp b <? b_exp a) || ((b_exp a =? b_exp b) && strike_desc (b_strike a) (b_strike b)).

Record feed_data := {
  fd_dividends : list (Z * Q); fd_close : option Q; fd_chain : chain
}.

(** One [(Symbol, Frequency)] row of the select-all loop of [main]: the
    opportunities of that symbol, [[]] when it has no dividend summary or
    no close price. *)
Definition select_all_opportunities (num_past_dividends : nat) (budget_percentage multiplier
  strike_adjustment : Z) (feed : string -> feed_data) (row : string * Z) : list brow :=
  let '(sym, dividend_frequency) := row in
  match fetch_dividend_data (fd_dividends (feed sym)) num_past_dividends with
  | None => []
  | Some (_, _, last_dividend_date, avg) =>
    match fd_close (feed sym) with
    | None => []
    | Some day_close_price =>
      fetch_put_option_data sym
        (premium_budget avg budget_percentage multiplier)
        (strike_price_threshold day_close_price strike_adjustment)
        avg last_dividend_date budget_percentage dividend_frequency
        (fd_chain (feed sym))
    end
  end.

(** The select-all branch of [main]: [csv] holds the [(Symbol, Frequency)]
    rows of [YieldMax_ETF_Symbols.csv]; the result is the displayed table,
    [[]] for the error branch. *)
Definition main_select_all (num_past_dividends : nat) (budget_percentage multiplier
  strike_adjustment : Z) (csv : list (string * Z)) (feed : string -> feed_data)
  : list brow :=
  let all_opportunities := flat_map (select_all_opportunities num_past_dividends
    budget_percentage multiplier strike_adjustment feed) csv in
  isort before_b all_opportunities.

End BBMax.

(** ** BBMaxBeta.py: the sidebar and the search button *)
Module BetaApp.
Import Beta.

(** [grouped_symbols]: each group's header, then its members. *)
Definition grouped_symbols : list string :=
  flat_map (fun '(g, syms) => ("--- " ++ g ++ " ---")%string :: syms) YIELDMAX_GROUPS.

(** [str.upper], restricted to ASCII text: the symbols are ASCII, and
    other characters of the search text are kept as they are (Python
    would also upper-case non-ASCII letters). *)
Definition ascii_upper (c : Ascii.ascii) : Ascii.ascii :=
  let n := Ascii.nat_of_ascii c in
  if (Nat.leb 97 n && Nat.leb n 122)%bool then Ascii.ascii_of_nat (n - 32) else c.

Fixpoint py_upper (s : string) : string :=
  match s with
  | EmptyString => EmptyString
  | String c s' => String (ascii_upper c) (py_upper s')
  end.

(** Python's [pat in s] for strings. *)
Fixpoint contains (pat s : string) : bool :=
  String.prefix pat s ||
  match s with EmptyString => false | String _ s' => contains pat s' end.

(** [filtered_symbols] for the raw text of the search box. *)
Definition filtered_symbols (search_raw : string) : list string :=
  let search_input := py_upper search_raw in
  match search_input with
  | EmptyString => grouped_symbols
  | _ => filter (fun s => contains search_input s && negb (String.prefix "---" s))
           grouped_symbols
  end.

(** [list.index] for a member of the list. *)
Fixpoint py_index (x : string) (l : list string) : nat :=
  match l with
  | [] => 0
  | y :: l' => if String.eqb x y then 0 else S (py_index x l')
  end.

(** The [index] passed to the symbol selectbox. *)
Definition selectbox_index (options : list string) (last_selected : option string) : nat :=
  match last_selected with
  | Some s => if existsb (String.eqb s) options then py_index s options else 0
  | None => 0
  end.

(** The option the selectbox shows first ([None] when it has no options). *)
Definition selectbox_default (options : list string) (last_selected : option string)
  : option string :=
  match options with
  | [] => None
  | o :: _ => Some (nth (selectbox_index options last_selected) options o)
  end.

(** [last_selected_symbol] after a run that selected [selected_symbol]. *)
Definition remember_selection (last_selected : option string)
  (selected_symbol : option string) : option string :=
  match selected_symbol with
  | Some s => if negb (String.eqb s "") && negb (String.prefix "---" s)
              then Some s else last_selected
  | None => last_selected
  end.

(** What a click on "Search for Opportunities" displays. *)
Inductive outcome :=
| SelectionWarning
| Consolidated (rows : list orow)
| NoHighlighted
| SingleSymbol (sym : string) (result : option (list orow)).

Definition search_clicked (p : params) (feed : string -> feed_data) (today : Z)
  (selected_symbol : option string) (analyze_all_checked : bool) : outcome :=
  let no_symbol := match selected_symbol with
                   | None => true
                   | Some s => String.eqb s "" || String.prefix "---" s
                   end in
  if no_symbol && negb analyze_all_checked then SelectionWarning
  else if analyze_all_checked then
    match analyze_all p feed today all_symbols with
    | [] => NoHighlighted
    | rows => Consolidated rows
    end
  else
    match selected_symbol with
    | None => SelectionWarning
    | Some s => SingleSymbol s (analyze_symbol s p (fd_dividends (feed s))
                                  (fd_close (feed s)) (fd_chain (feed s)) today)
    end.

End BetaApp.

(** ** BBMax.py: the sidebar and the health recovery graph *)
Module BBMaxApp.
Import BBMax.

(** One run of [display_sidebar]'s symbol logic.  [restored] is the
    session's ["restored_symbol"] entry ([None]: no entry); [widget] the
    selectbox value.  The result is the selected symbol and the new entry. *)
Definition sidebar_symbol (restored : option (option string)) (select_all : bool)
  (widget : option string) : option string * option (option string) :=
  if select_all then (None, Some widget)
  else match restored with
       | Some v => (v, None)
       | None => (widget, None)
       end.

(** Successive runs of the sidebar, each with the [Select All Symbols]
    box and the selectbox value; the session starts without the entry.
    The result lists the symbol each run returns. *)
Fixpoint sidebar_runs (restored : option (option string))
  (runs : list (bool * option string)) : list (option string) :=
  match runs with
  | [] => []
  | (select_all, widget) :: rest =>
      let '(sel, restored') := sidebar_symbol restored select_all widget in
      sel :: sidebar_runs restored' rest
  end.

(** [timedelta(days=2)] in seconds. *)
Definition two_days : Z := 2 * seconds_per_day.

(** [Series.asof(t)] on the close series (time, price), index ascending:
    the last price at or before [t]. *)
Definition asof (historical : list (Z * Q)) (t : Z) : option Q :=
  match rev (filter (fun '(ti, _) => ti <=? t) historical) with
  | [] => None
  | (_, v) :: _ => Some v
  end.

(** [historical['Close'].loc[historical.index >= t].iloc[0]]; [None] for
    the IndexError. *)
Definition first_at_or_after (historical : list (Z * Q)) (t : Z) : option Q :=
  match filter (fun '(ti, _) => t <=? ti) historical with
  | [] => None
  | (_, v) :: _ => Some v
  end.

(** [dividends.index[dividends.index < dividend_date].max()]; [None] for NaT. *)
Definition prior_date (chosen : list (Z * Q)) (current : Z) : option Z :=
  fold_right (fun d acc => match acc with
                           | None => Some (fst d)
                           | Some a => Some (Z.max a (fst d))
                           end)
    None (filter (fun d => fst d <? current) chosen).

Inductive status := Surpass | Recovered | Decline.

Definition recovery_status (P1 P2 P3 : Q) : status :=
  if Qlt_le_dec P1 P3 then Surpass
  else if Qlt_le_dec P2 P3 then Recovered
  else Decline.

(** The body of the loop over the chosen dividends: [None] for [continue]
    (no earlier dividend, a missing price, or the IndexError of P2). *)
Definition recovery_point (historical chosen : list (Z * Q)) (dividend : Z * Q)
  : option (status * Z * Q) :=
  let current_date := fst dividend in
  match prior_date chosen current_date with
  | None => None
  | Some prior =>
    match first_at_or_after historical prior with
    | None => None
    | Some P2 =>
      match asof historical (prior - two_days), asof historical (current_date - two_days) with
      | Some P1, Some P3 => Some (recovery_status P1 P2 P3, current_date, P3)
      | _, _ => None
      end
    end
  end.

(** [recovery_data] of [plot_health_recovery_graph]. *)
Definition recovery_data (historical dividends : list (Z * Q)) (num_past_dividends : nat)
  : list (status * Z * Q) :=
  let chosen := firstn num_past_dividends (isort date_desc dividends) in
  filter_map (recovery_point historical chosen) chosen.

End BBMaxApp.

(** ** Sample market data *)
Module Sample.

Definition d (y m dd : Z) : Z := days_from_civil y m dd.

Definition qt (k lp : Q) : quote := {| strike := Some k; lastPrice := Some lp |}.

(** A monthly payer: four distributions of 0.50. *)
Definition dividends : list (Z * Q) :=
  [(d 2024 11 7, 1#2); (d 2024 12 5, 1#2); (d 2025 1 2, 1#2); (d 2025 1 30, 1#2)]%Q.

Definition today : Z := d 2025 2 15.

(** Two expirations around the milestone; strike 4 is under the threshold,
    the 0.60 put is over budget, one last price is NaN, and two puts of
    2025-05-16 tie on expiration and last price. *)
Definition puts_chain : chain :=
  [(d 2025 3 21, [qt 5 (1#10); qt 6 (3#10); qt 4 (1#20); qt 7 (3#5);
                  {| strike := Some 8; lastPrice := None |}]);
   (d 2025 5 16, [qt 5 (3#10); qt 6 (3#10); qt 7 (7#20)])]%Q.

Definition beta_params : Beta.params :=
  {| Beta.num_dividends := 6; Beta.future_periods := 3;
     Beta.percentage_for_single_premium := 25; Beta.strike_price_relative := 5 |}.

Definition feed (s : string) : Beta.feed_data :=
  if String.eqb s "NVDY" then
    {| Beta.fd_dividends := dividends; Beta.fd_close := Some 10%Q; Beta.fd_chain := puts_chain |}
  else if String.eqb s "TSLY" then
    {| Beta.fd_dividends := []; Beta.fd_close := Some 10%Q; Beta.fd_chain := puts_chain |}
  else
    {| Beta.fd_dividends := dividends; Beta.fd_close := Some 10%Q;
       Beta.fd_chain := [(d 2025 3 21, [qt 5 (1#10)])] |}%Q.

(** The budget scenario: four periods instead of three. *)
Definition budget_params : Beta.params :=
  {| Beta.num_dividends := 6; Beta.future_periods := 4;
     Beta.percentage_for_single_premium := 25; Beta.strike_price_relative := 5 |}.

Definition budget_chain : chain := [(d 2025 3 21, [qt 8 (9#20); qt 8 (11#20)])]%Q.

(** A fund whose only distribution paid 0. *)
Definition zero_dividends : list (Z * Q) := [(d 2025 1 30, 0%Q)].

(** For BBMax.py: the same distributions as tz-aware instants (midnight in
    New York, 05:00 UTC). *)
Definition dividend_instants : list (Z * Q) :=
  map (fun '(dd, a) => (dd * 86400 + 18000, a)) dividends.

Definition bbmax_chain : chain := [(d 2025 3 21, [qt 8 (1#10); qt 7 (3#10)])]%Q.

Definition bbmax_feed (s : string) : BBMax.feed_data :=
  {| BBMax.fd_dividends := dividend_instants; BBMax.fd_close := Some 10%Q;
     BBMax.fd_chain := bbmax_chain |}.

(** Daily closes of BBMax.py's sample fund from 2024-11-01 to 2025-02-14,
    stamped at 21:00 UTC (day [k] counted from 2024-11-01): each cycle
    starts low on the ex-dividend day and climbs, on a trend that falls
    fast, then slowly, then rises. *)
Definition trend (k : Z) : Z :=
  if k <? 34 then 1000 - 6 * k
  else if k <? 62 then 796 - 2 * (k - 34)
  else 740 + 2 * (k - 62).

Definition closes : list (Z * Q) :=
  map (fun i => let k := Z.of_nat i in
                ((d 2024 11 1 + k) * 86400 + 75600, (trend k + ((k - 6) mod 28) * 5) # 100))
    (seq 0 106).

(** A put expiring three weeks after the last distribution, quoted at 0. *)
Definition early_chain : chain := [(d 2025 2 21, [qt 8 0])]%Q.

End Sample.

(** * Properties *)

(** ** The stable sort *)

Section StableSortFacts.
Variable A : Type.
Variable le : A -> A -> bool.
Local Abbreviation insert := (insert le).
Local Abbreviation isort := (isort le).

Lemma insert_perm x l : Permutation (insert x l) (x :: l).
Proof.
  induction l as [|y l IH]; simpl; [auto|].
  destruct (le x y); [auto|].
  eapply perm_trans; [apply perm_skip, IH|apply perm_swap].
Qed.

Lemma isort_perm l : Permutation (isort l) l.
Proof.
  induction l as [|x l IH]; simpl; [auto|].
  eapply perm_trans; [apply insert_perm|auto].
Qed.

Hypothesis le_total : forall x y, le x y = false -> le y x = true.

Lemma insert_sorted x l :
  Sorted (fun a b => le a b = true) l ->
  Sorted (fun a b => le a b = true) (insert x l).
Proof.
  induction 1 as [|y l Hs IH Hhd]; simpl; [auto|].
  case_eq (le x y); intro Hxy; [auto|].
  constructor; [exact IH|].
  destruct l as [|z l]; simpl; [constructor; auto|].
  inversion Hhd; subst.
  destruct (le x z); constructor; auto.
Qed.

Lemma isort_sorted l : Sorted (fun a b => le a b = true) (isort l).
Proof. induction l; simpl; auto using insert_sorted. Qed.

(** Sorting an already sorted list changes nothing. *)
Lemma isort_id l :
  Sorted (fun a b => le a b = true) l -> isort l = l.
Proof.
  induction 1 as [|x l Hs IH Hhd]; simpl; [auto|].
  rewrite IH. destruct Hhd as [|y l' Hxy]; simpl; [auto|].
  rewrite Hxy. reflexivity.
Qed.

(** Stability: for a class [P] of mutually equivalent keys, the rows of
    the class appear in the output in input order. *)
Variable P : A -> bool.
Hypothesis P_class : forall x y, P x = true -> P y = true -> le x y = true.

Lemma filter_insert x l :
  filter P (insert x l) = if P x then x :: filter P l else filter P l.
Proof.
  induction l as [|y l IH]; simpl; [reflexivity|].
  case_eq (le x y); intro Hxy; simpl.
  - destruct (P x); reflexivity.
  - rewrite IH. case_eq (P y); intro Hy; case_eq (P x); intro Hx; auto.
    rewrite (P_class x y Hx Hy) in Hxy. discriminate.
Qed.

Lemma filter_isort l : filter P (isort l) = filter P l.
Proof.
  induction l as [|x l IH]; simpl; [reflexivity|].
  rewrite filter_insert, IH. reflexivity.
Qed.
End StableSortFacts.

(** ** Lists *)

Lemma In_filter_map {A B} (f : A -> option B) l y :
  In y (filter_map f l) <-> exists x, In x l /\ f x = Some y.
Proof.
  induction l as [|x l IH]; simpl.
  - split; [contradiction|intros (? & [] & _)].
  - destruct (f x) as [z|] eqn:Ef; simpl; rewrite IH; split.
    + intros [<-|(x' & Hx' & Hf)]; eauto.
    + intros (x' & [<-|Hx'] & Hf); [left; congruence|eauto].
    + intros (x' & Hx' & Hf); eauto.
    + intros (x' & [<-|Hx'] & Hf); [congruence|eauto].
Qed.

Lemma filter_map_length {A B} (f : A -> option B) l :
  List.length (filter_map f l)
  = List.length (filter (fun x => match f x with Some _ => true | None => false end) l).
Proof.
  induction l as [|x l IH]; simpl; [reflexivity|].
  destruct (f x); simpl; auto.
Qed.

Lemma StronglySorted_filter {A} (R : A -> A -> Prop) (f : A -> bool) l :
  StronglySorted R l -> StronglySorted R (filter f l).
Proof.
  induction 1 as [|x l Hs IH Hall]; simpl; [constructor|].
  destruct (f x); [|exact IH].
  constructor; [exact IH|].
  apply Forall_forall. intros y Hy. apply filter_In in Hy.
  exact (proj1 (Forall_forall _ _) Hall y (proj1 Hy)).
Qed.

Lemma StronglySorted_firstn_skipn {A} (R : A -> A -> Prop) n l :
  StronglySorted R l ->
  forall a b, In a (firstn n l) -> In b (skipn n l) -> R a b.
Proof.
  revert l. induction n as [|n IH]; intros l Hs a b Ha Hb; [contradiction|].
  destruct l as [|x l]; [contradiction|].
  simpl in Ha, Hb. inversion Hs as [|? ? Hs' Hall]; subst.
  destruct Ha as [<-|Ha].
  - apply (proj1 (Forall_forall _ _) Hall).
    rewrite <- (firstn_skipn n l). apply in_or_app. right. exact Hb.
  - eauto.
Qed.

(** ** BBMax.py: the put table *)
Module BBMaxFacts.
Import BBMax.

Lemma put_row_origin sym budget thr avg ldd pct freq ch r :
  In r (fetch_put_option_data sym budget thr avg ldd pct freq ch) ->
  exists e puts q,
    In (e, puts) ch /\ In q puts /\
    qge_opt (strike q) (inject_Z thr) = true /\ qle_opt (lastPrice q) budget = true /\
    r = {| b_exp := e; b_strike := strike q; b_last := lastPrice q; b_symbol := sym;
           b_highlight := qle_opt (lastPrice q)
             (inject_Z (((e * seconds_per_day - ldd) / seconds_per_day) / freq) * avg
              * (inject_Z pct / inject_Z 100))%Q;
           b_occurrences := ((e * seconds_per_day - ldd) / seconds_per_day) / freq;
           b_estimated := (inject_Z (((e * seconds_per_day - ldd) / seconds_per_day) / freq)
                           * avg)%Q |}.
Proof.
  unfold fetch_put_option_data. intro H.
  apply in_flat_map in H as ([e puts] & Hch & Hr).
  apply in_map_iff in Hr as (q & <- & Hq).
  apply filter_In in Hq as [Hq Hf]. apply andb_true_iff in Hf as [H1 H2].
  exists e, puts, q. repeat split; auto.
Qed.

Lemma strike_desc_total x y : strike_desc x y = false -> strike_desc y x = true.
Proof.
  destruct x as [a|], y as [b|]; simpl; try discriminate; auto.
  intro H. apply Qle_bool_iff. apply Qlt_le_weak, Qnot_le_lt.
  intro H'. apply Qle_bool_iff in H'. congruence.
Qed.

Lemma before_b_total a b : before_b a b = false -> before_b b a = true.
Proof.
  unfold before_b. intro H.
  apply orb_false_iff in H as [H1 H2]. apply Z.ltb_ge in H1.
  destruct (Z.eq_dec (b_exp a) (b_exp b)) as [E|E].
  - rewrite E, Z.eqb_refl in H2. simpl in H2.
    rewrite E, Z.ltb_irrefl, Z.eqb_refl. simpl. apply strike_desc_total. exact H2.
  - apply orb_true_iff. left. apply Z.ltb_lt. lia.
Qed.

Lemma Sorted_weaken {A} (R S : A -> A -> Prop) l :
  (forall a b, R a b -> S a b) -> Sorted R l -> Sorted S l.
Proof.
  intro HRS. induction 1 as [|x l Hs IH Hhd]; constructor; [exact IH|].
  destruct Hhd; constructor. apply HRS. assumption.
Qed.

Lemma select_all_sorted num_past_dividends budget_percentage multiplier
  strike_adjustment csv feed :
  Sorted (fun a b => b_exp b < b_exp a \/
                     (b_exp a = b_exp b /\ strike_desc (b_strike a) (b_strike b) = true))
    (main_select_all num_past_dividends budget_percentage multiplier
       strike_adjustment csv feed).
Proof.
  unfold main_select_all.
  apply (Sorted_weaken (fun a b => before_b a b = true)).
  - intros a b. unfold before_b.
    rewrite orb_true_iff, andb_true_iff, Z.ltb_lt, Z.eqb_eq. auto.
  - apply isort_sorted. exact before_b_total.
Qed.

Lemma select_all_perm num_past_dividends budget_percentage multiplier
  strike_adjustment csv feed :
  Permutation
    (main_select_all num_past_dividends budget_percentage multiplier
       strike_adjustment csv feed)
    (flat_map (select_all_opportunities num_past_dividends budget_percentage
                 multiplier strike_adjustment feed) csv).
Proof. unfold main_select_all. apply isort_perm. Qed.

End BBMaxFacts.

(** ** BBMaxBeta.py: the classifier *)
Module BetaProofs.
Import Beta.

Lemma before_total a b : before a b = false -> before b a = true.
Proof.
  unfold before. intro H.
  apply orb_false_iff in H as [H1 H2]. apply Z.ltb_ge in H1.
  destruct (Z.eq_dec (exp a) (exp b)) as [E|E].
  - rewrite E, Z.eqb_refl in H2. simpl in H2.
    rewrite E, Z.ltb_irrefl, Z.eqb_refl. simpl.
    apply Qle_bool_iff. apply Qlt_le_weak, Qnot_le_lt.
    intro C. apply Qle_bool_iff in C. congruence.
  - apply orb_true_iff. left. apply Z.ltb_lt. lia.
Qed.

Lemma before_trans a b c :
  before a b = true -> before b c = true -> before a c = true.
Proof.
  unfold before. rewrite !orb_true_iff, !andb_true_iff, !Z.ltb_lt, !Z.eqb_eq,
    !Qle_bool_iff.
  intros [H1|[H1 H1']] [H2|[H2 H2']]; try (left; lia).
  right. split; [lia|]. eapply Qle_trans; eassumption.
Qed.

Lemma Transitive_before : Transitive (fun a b => before a b = true).
Proof. intros a b c. apply before_trans. Qed.

(** Without a close price there is no table. *)
Lemma analyze_symbol_no_price sym p dividends ch today :
  analyze_symbol sym p dividends None ch today = None.
Proof.
  unfold analyze_symbol.
  destruct (fetch_dividends_from_yfinance dividends (num_dividends p)) as [avg ldd].
  destruct (Qeq_bool avg 0); reflexivity.
Qed.

(** The shape of a result of [analyze_symbol]. *)
Lemma analyze_symbol_Some sym p dividends price ch today rows :
  analyze_symbol sym p dividends (Some price) ch today = Some rows ->
  exists avg ld,
    fetch_dividends_from_yfinance dividends (num_dividends p) = (avg, Some ld) /\
    rows = map (fun r => (r, highlight_date 28 ld today (future_periods p) <=? exp r))
      (isort before
        (candidates sym (strike_price_threshold price (strike_price_relative p))
           (max_budget_for_extended_put_premium avg
              (percentage_for_single_premium p) (future_periods p))
           (fetch_put_options ch))).
Proof.
  unfold analyze_symbol.
  destruct (fetch_dividends_from_yfinance dividends (num_dividends p)) as [avg ldd].
  destruct (Qeq_bool avg 0); [discriminate|].
  destruct (fetch_put_options ch) as [|x l] eqn:Ep; [discriminate|].
  destruct (budget_filter _ _ (x :: l)); [discriminate|].
  destruct ldd as [ld|]; [|discriminate].
  intro H. injection H as <-. eauto.
Qed.

(** Every candidate passed both budget filters. *)
Definition within_budget (thr : Z) (ext : Q) (r : crow) : bool :=
  qge_opt (c_strike r) (inject_Z thr) && Qle_bool (last_price r) ext.

Lemma candidates_within sym thr ext puts r :
  In r (candidates sym thr ext puts) -> within_budget thr ext r = true.
Proof.
  unfold candidates, filtered_puts, budget_filter.
  intros Hr. apply In_filter_map in Hr as (f & Hf & Hd).
  apply in_map_iff in Hf as ([e q] & <- & Hq).
  apply filter_In in Hq as [Hq H2]. apply filter_In in Hq as [_ H1].
  unfold dropna, to_frame in Hd. simpl in Hd, H1, H2.
  destruct (lastPrice q) as [l|]; [|discriminate].
  injection Hd as <-. unfold within_budget. simpl.
  simpl in H2. rewrite H1, H2. reflexivity.
Qed.

(** Keys of [sort_values]: same expiration and same last price. *)
Definition same_key (e : Z) (lp : Q) (r : crow) : bool :=
  (exp r =? e) && Qeq_bool (last_price r) lp.

Lemma same_key_before e lp a b :
  same_key e lp a = true -> same_key e lp b = true -> before a b = true.
Proof.
  unfold same_key, before. rewrite !andb_true_iff, !Z.eqb_eq.
  intros [Ha Ha'] [Hb Hb']. apply Qeq_bool_iff in Ha', Hb'.
  apply orb_true_iff. right. apply andb_true_iff. split.
  - apply Z.eqb_eq. congruence.
  - apply Qle_bool_iff. rewrite Ha', Hb'. apply Qle_refl.
Qed.

Lemma map_fst_highlight (f : crow -> bool) l :
  map fst (map (fun r => (r, f r)) l) = l.
Proof. induction l; simpl; f_equal; auto. Qed.

(** C1.  BBMaxBeta.py: every row of the [analyze_symbol] table is within
    budget (strike at or above the strike threshold, last price at most
    the extended premium), and it has its [Highlight] mark exactly when it
    is within budget and its expiration is on or after the projected
    milestone [highlight_date].  BBMax.py: every row of
    [fetch_put_option_data] is marked exactly when its last price is at
    most [floor(days since the last dividend / frequency) * avg * pct/100],
    with no milestone date involved. *)
Theorem analyze_symbol_highlight_iff :
  (forall sym p dividends price ch today rows,
    analyze_symbol sym p dividends (Some price) ch today = Some rows ->
    exists avg ld,
      fetch_dividends_from_yfinance dividends (num_dividends p) = (avg, Some ld) /\
      forall r, In r rows ->
        within_budget (strike_price_threshold price (strike_price_relative p))
          (max_budget_for_extended_put_premium avg
             (percentage_for_single_premium p) (future_periods p)) (fst r) = true /\
        snd r = within_budget (strike_price_threshold price (strike_price_relative p))
                  (max_budget_for_extended_put_premium avg
                     (percentage_for_single_premium p) (future_periods p)) (fst r)
                && (highlight_date 28 ld today (future_periods p) <=? exp (fst r)) /\
        (snd r = true <-> highlight_date 28 ld today (future_periods p) <= exp (fst r))) /\
  (forall sym budget thr avg ldd pct freq ch r,
    In r (BBMax.fetch_put_option_data sym budget thr avg ldd pct freq ch) ->
    BBMax.b_highlight r =
      qle_opt (BBMax.b_last r)
        (inject_Z (((BBMax.b_exp r * BBMax.seconds_per_day - ldd)
                    / BBMax.seconds_per_day) / freq) * avg
         * (inject_Z pct / inject_Z 100))%Q).
Proof.
  split.
  - intros sym p dividends price ch today rows H.
    apply analyze_symbol_Some in H as (avg & ld & Hf & ->).
    exists avg, ld. split; [exact Hf|].
    intros r Hr. apply in_map_iff in Hr as (c & <- & Hc). simpl.
    apply (Permutation_in _ (isort_perm _ before _)), candidates_within in Hc.
    rewrite Hc. simpl. split; [reflexivity|split; [reflexivity|]].
    apply Z.leb_le.
  - intros sym budget thr avg ldd pct freq ch r H.
    apply BBMaxFacts.put_row_origin in H as (e & puts & q & _ & _ & _ & _ & ->).
    reflexivity.
Qed.
(** The table of [analyze_symbol] is sorted and its order is stable. *)
Lemma analyze_symbol_sorted_stable_aux sym p dividends price ch today rows :
  analyze_symbol sym p dividends (Some price) ch today = Some rows ->
  exists avg ld,
    fetch_dividends_from_yfinance dividends (num_dividends p) = (avg, Some ld) /\
    Sorted (fun a b => before a b = true) (map fst rows) /\
    forall e lp,
      filter (same_key e lp) (map fst rows) =
      filter (same_key e lp)
        (candidates sym (strike_price_threshold price (strike_price_relative p))
           (max_budget_for_extended_put_premium avg
              (percentage_for_single_premium p) (future_periods p))
           (fetch_put_options ch)).
Proof.
  intro H. apply analyze_symbol_Some in H as (avg & ld & Hf & ->).
  exists avg, ld. rewrite map_fst_highlight. split; [exact Hf|split].
  - apply isort_sorted. exact before_total.
  - intros e lp. apply filter_isort. apply same_key_before.
Qed.

(** C7.  The [analyze_symbol] table of BBMaxBeta.py is ordered by
    expiration date descending, then last price descending, and any two
    contracts with the same expiration date and last price keep the
    relative order they have in the (filtered) input chain.  The
    select-all table of BBMax.py is ordered by expiration date descending,
    then strike price descending, rows without a strike last. *)
Theorem analyze_symbol_sorted_stable :
  (forall sym p dividends price ch today rows,
    analyze_symbol sym p dividends (Some price) ch today = Some rows ->
    exists avg ld,
      fetch_dividends_from_yfinance dividends (num_dividends p) = (avg, Some ld) /\
      Sorted (fun a b => before a b = true) (map fst rows) /\
      forall e lp,
        filter (same_key e lp) (map fst rows) =
        filter (same_key e lp)
          (candidates sym (strike_price_threshold price (strike_price_relative p))
             (max_budget_for_extended_put_premium avg
                (percentage_for_single_premium p) (future_periods p))
             (fetch_put_options ch))) /\
  (forall num_past_dividends budget_percentage multiplier strike_adjustment csv feed,
    Sorted (fun a b => BBMax.b_exp b < BBMax.b_exp a \/
                       (BBMax.b_exp a = BBMax.b_exp b /\
                        BBMax.strike_desc (BBMax.b_strike a) (BBMax.b_strike b) = true))
      (BBMax.main_select_all num_past_dividends budget_percentage multiplier
         strike_adjustment csv feed)).
Proof.
  split; [apply analyze_symbol_sorted_stable_aux|apply BBMaxFacts.select_all_sorted].
Qed.
(** C10.  Every row of the [analyze_symbol] table comes from a filtered
    contract whose expiration date and last price both converted; the
    filtered contracts for which either conversion failed (NaT / NaN) are
    dropped: the table is a permutation of the rows that survive [dropna],
    and has as many rows as there are filtered contracts with both values. *)
Theorem analyze_symbol_rows_defined sym p dividends price ch today rows :
  analyze_symbol sym p dividends (Some price) ch today = Some rows ->
  exists thr ext,
    Permutation (map fst rows)
      (filter_map dropna (filtered_puts sym thr ext (fetch_put_options ch))) /\
    (forall r, In r rows ->
       exists f, In f (filtered_puts sym thr ext (fetch_put_options ch)) /\
         f_exp f = Some (exp (fst r)) /\ f_last f = Some (last_price (fst r)) /\
         f_strike f = c_strike (fst r) /\ f_symbol f = symbol (fst r)) /\
    List.length rows =
    List.length (filter (fun f => notna (f_exp f) && notna (f_last f))
                   (filtered_puts sym thr ext (fetch_put_options ch))).
Proof.
  intro H. apply analyze_symbol_Some in H as (avg & ld & _ & ->).
  do 2 eexists. rewrite map_fst_highlight. split; [|split].
  - apply isort_perm.
  - intros r Hr. apply in_map_iff in Hr as (c & <- & Hc). simpl.
    apply (Permutation_in _ (isort_perm _ before _)) in Hc.
    unfold candidates in Hc. apply In_filter_map in Hc as (f & Hf & Hd).
    exists f. split; [exact Hf|].
    unfold dropna in Hd.
    destruct (f_exp f), (f_last f); try discriminate.
    injection Hd as <-. simpl. auto.
  - rewrite length_map, (Permutation_length (isort_perm _ _ _)).
    unfold candidates. rewrite filter_map_length.
    f_equal. apply filter_ext. intro f. unfold dropna.
    destruct (f_exp f), (f_last f); reflexivity.
Qed.

(** ** BBMaxBeta.py: the analyze-all branch *)

Lemma Sorted_map_fst {B} (R : crow -> crow -> Prop) (l : list (crow * B)) :
  Sorted R (map fst l) -> Sorted (fun a b => R (fst a) (fst b)) l.
Proof.
  induction l as [|x l IH]; simpl; intro H; [constructor|].
  inversion H as [|? ? Hs Hhd]; subst. constructor; [auto|].
  destruct l as [|y l]; constructor. inversion Hhd; auto.
Qed.

Lemma symbol_highlights_sorted p feed today s :
  Sorted (fun a b => before_o a b = true) (symbol_highlights p feed today s).
Proof.
  unfold symbol_highlights.
  destruct (fd_close (feed s)) as [cl|]; [|rewrite analyze_symbol_no_price; constructor].
  destruct (analyze_symbol _ _ _ _ _ _) as [rows|] eqn:E; [|constructor].
  apply analyze_symbol_sorted_stable_aux in E as (_ & _ & _ & Hs & _).
  apply Sorted_map_fst in Hs.
  apply StronglySorted_Sorted, StronglySorted_filter, Sorted_StronglySorted;
    [|exact Hs].
  intros a b c. apply before_trans.
Qed.

Lemma concat_collect rs :
  List.concat (collect rs)
  = List.concat (map (fun r => match r with
                               | None => []
                               | Some rows => highlighted_rows rows
                               end) rs).
Proof.
  induction rs as [|[rows|] rs IH]; simpl; auto.
  destruct (highlighted_rows rows) eqn:E; simpl; rewrite IH; reflexivity.
Qed.

Lemma analyze_all_concat p feed today syms :
  analyze_all p feed today syms
  = isort before_o (List.concat (map (symbol_highlights p feed today) syms)).
Proof.
  assert (Hc : List.concat (map (symbol_highlights p feed today) syms)
    = List.concat (collect (map (fun s => analyze_symbol s p (fd_dividends (feed s))
        (fd_close (feed s)) (fd_chain (feed s)) today) syms))).
  { rewrite concat_collect, map_map. reflexivity. }
  unfold analyze_all. rewrite Hc.
  destruct (collect _); reflexivity.
Qed.

Lemma concat_map_nil {A B} (f : A -> list B) l :
  (forall x, In x l -> f x = []) -> List.concat (map f l) = [].
Proof.
  induction l as [|x l IH]; simpl; intro H; [reflexivity|].
  rewrite H, IH; auto.
Qed.

(** C5.  The consolidated table of the analyze-all branch of
    BBMaxBeta.py is the concatenation, over the symbols in iteration
    order, of each symbol's highlighted rows, re-sorted by expiration date
    then last price, both descending.  When no symbol has a highlighted
    row it is empty; when a single symbol has highlighted rows it is
    exactly those rows.  The select-all table of BBMax.py holds all the
    opportunities of every symbol of the CSV file, highlighted or not,
    ordered by expiration date then strike price, both descending. *)
Theorem analyze_all_highlighted :
  (forall p feed today syms,
    analyze_all p feed today syms
    = isort before_o (List.concat (map (symbol_highlights p feed today) syms)) /\
    ((forall s, In s syms -> symbol_highlights p feed today s = []) ->
     analyze_all p feed today syms = []) /\
    (forall pre s post, syms = pre ++ s :: post ->
     (forall s', In s' (pre ++ post) -> symbol_highlights p feed today s' = []) ->
     analyze_all p feed today syms = symbol_highlights p feed today s)) /\
  (forall num_past_dividends budget_percentage multiplier strike_adjustment csv feed,
    Permutation
      (BBMax.main_select_all num_past_dividends budget_percentage multiplier
         strike_adjustment csv feed)
      (flat_map (BBMax.select_all_opportunities num_past_dividends budget_percentage
                   multiplier strike_adjustment feed) csv) /\
    Sorted (fun a b => BBMax.b_exp b < BBMax.b_exp a \/
                       (BBMax.b_exp a = BBMax.b_exp b /\
                        BBMax.strike_desc (BBMax.b_strike a) (BBMax.b_strike b) = true))
      (BBMax.main_select_all num_past_dividends budget_percentage multiplier
         strike_adjustment csv feed)).
Proof.
  split.
  2:{ intros. split; [apply BBMaxFacts.select_all_perm|apply BBMaxFacts.select_all_sorted]. }
  intros p feed today syms.
  rewrite analyze_all_concat. split; [reflexivity|split].
  - intro H. rewrite concat_map_nil; auto.
  - intros pre s post -> H.
    rewrite map_app, concat_app. simpl.
    rewrite !concat_map_nil; [| intros x Hx; apply H; apply in_or_app; auto
                              | intros x Hx; apply H; apply in_or_app; auto].
    rewrite app_nil_l, app_nil_r. apply isort_id, symbol_highlights_sorted.
Qed.

(** ** BBMaxBeta.py: the projected milestone *)

Lemma advance_inv cad last_div today :
  0 < cad ->
  forall fuel k, 1 <= k ->
  (k = 1 \/ last_div + cad * (k - 1) <= today) ->
  today - (last_div + cad * k) < Z.of_nat fuel ->
  exists k', 1 <= k' /\
    advance fuel cad today (last_div + cad * k) = last_div + cad * k' /\
    today < last_div + cad * k' /\
    (k' = 1 \/ last_div + cad * (k' - 1) <= today).
Proof.
  intros Hc fuel. induction fuel as [|f IH]; intros k Hk Hmin Hfuel; simpl.
  - exists k. simpl in Hfuel. repeat split; auto; lia.
  - destruct (last_div + cad * k <=? today) eqn:E.
    + apply Z.leb_le in E.
      replace (last_div + cad * k + cad) with (last_div + cad * (k + 1)) by ring.
      apply IH.
      * lia.
      * right. replace (k + 1 - 1) with k by ring. exact E.
      * rewrite Nat2Z.inj_succ in Hfuel. rewrite Z.mul_add_distr_l. lia.
    + apply Z.leb_gt in E. exists k. auto.
Qed.

Lemma next_expected_spec cad last_div today :
  0 < cad ->
  exists k, 1 <= k /\
    next_expected_dividend_date cad last_div today = last_div + cad * k /\
    today < last_div + cad * k /\
    (k = 1 \/ last_div + cad * (k - 1) <= today).
Proof.
  intro Hc. unfold next_expected_dividend_date.
  destruct (last_div + cad <=? today) eqn:E.
  - apply Z.leb_le in E.
    replace (last_div + cad) with (last_div + cad * 1) by ring.
    apply advance_inv; [exact Hc|lia|left; reflexivity|].
    rewrite Nat2Z.inj_succ, Z2Nat.id; lia.
  - apply Z.leb_gt in E. exists 1. repeat split; try lia.
Qed.

(** C8.  For a positive cadence and [periods >= 1], one more period moves
    the milestone exactly one cadence later; with one period the milestone
    is the first projected dividend date [last_div + cad * k] ([k >= 1])
    strictly after [today]. *)
Theorem highlight_date_periods cad last_div today periods :
  0 < cad -> 1 <= periods ->
  highlight_date cad last_div today (periods + 1)
    = highlight_date cad last_div today periods + cad /\
  highlight_date cad last_div today 1
    = next_expected_dividend_date cad last_div today /\
  today < next_expected_dividend_date cad last_div today /\
  exists k, 1 <= k /\
    next_expected_dividend_date cad last_div today = last_div + cad * k /\
    forall k', 1 <= k' -> today < last_div + cad * k' -> k <= k'.
Proof.
  intros Hc Hp. unfold highlight_date.
  destruct (next_expected_spec cad last_div today Hc) as (k & Hk & Hn & Ht & Hmin).
  split; [ring|split; [ring|split; [lia|]]].
  exists k. split; [exact Hk|split; [exact Hn|]].
  intros k' Hk' Ht'. destruct Hmin as [->|Hm]; [exact Hk'|].
  destruct (Z_le_gt_dec k k') as [|Hlt]; [assumption|].
  assert (cad * k' <= cad * (k - 1)) by (apply Z.mul_le_mono_nonneg_l; lia).
  lia.
Qed.

Lemma highlight_date_periods_witness :
  highlight_date 28 (days_from_civil 2025 1 2) (days_from_civil 2025 2 15) 4
    = highlight_date 28 (days_from_civil 2025 1 2) (days_from_civil 2025 2 15) 3 + 28.
Proof.
  apply (highlight_date_periods 28 (days_from_civil 2025 1 2)
           (days_from_civil 2025 2 15) 3); lia.
Defined.

(** C2, as the code computes it.  From 2025-01-02 with a 28-day cadence the
    first projected date after 2025-02-15 is 2025-02-27 (2025-01-30 is not
    after it, 2025-02-27 is), and three periods out the milestone is
    2025-04-24. *)
Theorem highlight_date_scenario :
  next_expected_dividend_date 28 (days_from_civil 2025 1 2) (days_from_civil 2025 2 15)
    = days_from_civil 2025 2 27 /\
  highlight_date 28 (days_from_civil 2025 1 2) (days_from_civil 2025 2 15) 3
    = days_from_civil 2025 4 24.
Proof. split; reflexivity. Qed.

(** C2, as stated: the milestone is not 2025-06-22. *)
Lemma highlight_date_scenario_not_0622 :
  highlight_date 28 (days_from_civil 2025 1 2) (days_from_civil 2025 2 15) 3
    <> days_from_civil 2025 6 22.
Proof. vm_compute. discriminate. Qed.

Lemma analyze_symbol_highlight_iff_witness :
  exists rows,
    analyze_symbol "NVDY" Sample.beta_params Sample.dividends (Some 10%Q) Sample.puts_chain
      Sample.today = Some rows /\
    exists avg ld,
      fetch_dividends_from_yfinance Sample.dividends 6 = (avg, Some ld) /\
      forall r, In r rows ->
        within_budget (strike_price_threshold 10 5)
          (max_budget_for_extended_put_premium avg 25 3) (fst r) = true /\
        (snd r = true <-> highlight_date 28 ld Sample.today 3 <= exp (fst r)).
Proof.
  pose (rows := match analyze_symbol "NVDY" Sample.beta_params Sample.dividends (Some 10%Q)
                        Sample.puts_chain Sample.today with
                | Some r => r | None => [] end).
  assert (H : analyze_symbol "NVDY" Sample.beta_params Sample.dividends (Some 10%Q)
                Sample.puts_chain Sample.today = Some rows) by reflexivity.
  exists rows. split; [exact H|].
  destruct (proj1 analyze_symbol_highlight_iff _ _ _ _ _ _ _ H) as (avg & ld & Hf & Hr).
  exists avg, ld. split; [exact Hf|]. intros r Hin.
  destruct (Hr r Hin) as (Hw & _ & Hh). split; [exact Hw|exact Hh].
Defined.

Lemma analyze_symbol_sorted_stable_witness :
  exists rows,
    analyze_symbol "NVDY" Sample.beta_params Sample.dividends (Some 10%Q) Sample.puts_chain
      Sample.today = Some rows /\
    exists avg ld,
      fetch_dividends_from_yfinance Sample.dividends 6 = (avg, Some ld) /\
      Sorted (fun a b => before a b = true) (map fst rows) /\
      forall e lp,
        filter (same_key e lp) (map fst rows) =
        filter (same_key e lp)
          (candidates "NVDY" (strike_price_threshold 10 5)
             (max_budget_for_extended_put_premium avg 25 3)
             (fetch_put_options Sample.puts_chain)).
Proof.
  pose (rows := match analyze_symbol "NVDY" Sample.beta_params Sample.dividends (Some 10%Q)
                        Sample.puts_chain Sample.today with
                | Some r => r | None => [] end).
  assert (H : analyze_symbol "NVDY" Sample.beta_params Sample.dividends (Some 10%Q)
                Sample.puts_chain Sample.today = Some rows) by reflexivity.
  exists rows. split; [exact H|].
  exact (proj1 analyze_symbol_sorted_stable _ _ _ _ _ _ _ H).
Defined.

Lemma analyze_symbol_rows_defined_witness :
  exists rows,
    analyze_symbol "NVDY" Sample.beta_params Sample.dividends (Some 10%Q) Sample.puts_chain
      Sample.today = Some rows /\
    exists thr ext,
      Permutation (map fst rows)
        (filter_map dropna (filtered_puts "NVDY" thr ext
                              (fetch_put_options Sample.puts_chain))) /\
      (forall r, In r rows ->
         exists f, In f (filtered_puts "NVDY" thr ext (fetch_put_options Sample.puts_chain)) /\
           f_exp f = Some (exp (fst r)) /\ f_last f = Some (last_price (fst r)) /\
           f_strike f = c_strike (fst r) /\ f_symbol f = symbol (fst r)) /\
      List.length rows =
      List.length (filter (fun f => notna (f_exp f) && notna (f_last f))
                     (filtered_puts "NVDY" thr ext (fetch_put_options Sample.puts_chain))).
Proof.
  pose (rows := match analyze_symbol "NVDY" Sample.beta_params Sample.dividends (Some 10%Q)
                        Sample.puts_chain Sample.today with
                | Some r => r | None => [] end).
  assert (H : analyze_symbol "NVDY" Sample.beta_params Sample.dividends (Some 10%Q)
                Sample.puts_chain Sample.today = Some rows) by reflexivity.
  exists rows. split; [exact H|].
  exact (analyze_symbol_rows_defined _ _ _ _ _ _ _ H).
Defined.

Lemma analyze_all_highlighted_witness :
  analyze_all Sample.beta_params Sample.feed Sample.today ["TSLY"; "NVDY"; "CONY"]%string
  = symbol_highlights Sample.beta_params Sample.feed Sample.today "NVDY" /\
  symbol_highlights Sample.beta_params Sample.feed Sample.today "NVDY" <> [].
Proof.
  split; [|vm_compute; discriminate].
  apply (proj2 (proj2 (proj1 analyze_all_highlighted Sample.beta_params Sample.feed
           Sample.today ["TSLY"; "NVDY"; "CONY"]%string)) ["TSLY"]%string "NVDY"%string
           ["CONY"]%string); [reflexivity|].
  intros s' [<-|[<-|[]]]; vm_compute; reflexivity.
Defined.

End BetaProofs.

(** ** Budget, dividend summaries and the BBMax.py variant *)
Module BudgetProofs.

(** For a positive price, Python's [int] is the floor. *)
Lemma py_int_floor x : (0 < x)%Q -> Beta.py_int x = Qfloor x.
Proof.
  destruct x as [n dd]. unfold Qlt. simpl. intro H.
  unfold Beta.py_int, Qfloor. simpl.
  apply Z.quot_div_nonneg; lia.
Qed.

(** The BBMaxBeta threshold is [max(1, floor(price) - offset)]. *)
Lemma beta_strike_price_threshold x rel :
  (0 < x)%Q -> Beta.strike_price_threshold x rel = Z.max 1 (Qfloor x - rel).
Proof. intro H. unfold Beta.strike_price_threshold. rewrite py_int_floor; auto. Qed.

(** C3.  At a close of 5.80 and a strike adjustment of 6, BBMax.py's
    [main] computes a strike threshold of -1, where BBMaxBeta.py's
    [analyze_symbol] floors it at 1. *)
Theorem strike_threshold_below_one :
  BBMax.strike_price_threshold (29#5) 6 = -1 /\
  Beta.strike_price_threshold (29#5) 6 = 1.
Proof. split; reflexivity. Qed.

(** C4.  The extended premium is [avg * (pct / 100) * periods] in both
    scripts; with an average of 0.50, 25 % and 4 periods it is 0.50, and
    the filter keeps a put at 0.45 and drops one at 0.55 (strike 8 above
    the threshold 5 of a 10.00 close). *)
Theorem extended_premium_scenario :
  (forall avg pct periods,
     Beta.max_budget_for_extended_put_premium avg pct periods
       = (avg * (inject_Z pct / inject_Z 100) * inject_Z periods)%Q /\
     BBMax.premium_budget avg pct periods
       = (avg * (inject_Z pct / inject_Z 100) * inject_Z periods)%Q) /\
  (Beta.max_budget_for_extended_put_premium (1#2) 25 4 == 1#2)%Q /\
  (fst (Beta.fetch_dividends_from_yfinance Sample.dividends 6) == 1#2)%Q /\
  option_map (map (fun r => Beta.last_price (fst r)))
    (Beta.analyze_symbol "NVDY" Sample.budget_params Sample.dividends (Some 10%Q)
       Sample.budget_chain Sample.today) = Some [(9#20)%Q] /\
  map BBMax.b_last
    (BBMax.fetch_put_option_data "NVDY" (BBMax.premium_budget (1#2) 25 4) 5 (1#2)
       (Sample.d 2025 1 30 * 86400) 25 28 Sample.budget_chain) = [Some (9#20)%Q].
Proof.
  split; [intros; split; reflexivity|].
  repeat split; vm_compute; reflexivity.
Qed.

(** C6, as stated: an empty series gives BBMaxBeta.py's summarizer a zero
    average, and a fund whose distribution paid 0 is dropped by
    [analyze_symbol] as if it had no data. *)
Lemma zero_average_counterexample :
  Beta.fetch_dividends_from_yfinance [] 6 = (0%Q, None) /\
  (fst (Beta.fetch_dividends_from_yfinance Sample.zero_dividends 6) == 0)%Q /\
  snd (Beta.fetch_dividends_from_yfinance Sample.zero_dividends 6)
    = Some (Sample.d 2025 1 30) /\
  Beta.analyze_symbol "NVDY" Sample.beta_params Sample.zero_dividends (Some 10%Q)
    Sample.puts_chain Sample.today = None.
Proof. repeat split; vm_compute; reflexivity. Qed.

Lemma isort_nonempty {A} (le : A -> A -> bool) l :
  l <> [] -> exists x s, isort le l = x :: s.
Proof.
  intro Hne. destruct (isort le l) as [|x s] eqn:E; [|eauto].
  exfalso. apply Hne, Permutation_nil. rewrite <- E. apply isort_perm.
Qed.

Lemma fetch_dividend_data_shape dividends n :
  dividends <> [] -> (1 <= n)%nat ->
  exists d s, isort BBMax.date_desc dividends = d :: s /\
    BBMax.fetch_dividend_data dividends n =
      Some (fold_right Qplus 0%Q (map snd (firstn n (d :: s))),
            List.length (firstn n (d :: s)), fst d,
            (fold_right Qplus 0%Q (map snd (firstn n (d :: s)))
             / inject_Z (Z.of_nat (List.length (firstn n (d :: s)))))%Q).
Proof.
  intros Hne Hn. destruct (isort_nonempty BBMax.date_desc _ Hne) as (d & s & E).
  exists d, s. split; [exact E|]. unfold BBMax.fetch_dividend_data.
  destruct dividends as [|x xs]; [congruence|]. rewrite E.
  destruct n as [|n]; [lia|]. reflexivity.
Qed.

(** C6, as the code does it.  BBMaxBeta.py's summarizer returns
    [(0.0, None)] for an empty series and [analyze_symbol] returns no table
    whenever the average is zero, empty series or not; BBMax.py's summarizer
    returns [None] for an empty series and a summary for any non-empty one. *)
Theorem zero_average_is_no_data :
  (forall n, Beta.fetch_dividends_from_yfinance [] n = (0%Q, None)) /\
  (forall sym p dividends price ch today,
     (fst (Beta.fetch_dividends_from_yfinance dividends (Beta.num_dividends p)) == 0)%Q ->
     Beta.analyze_symbol sym p dividends price ch today = None) /\
  (forall n, BBMax.fetch_dividend_data [] n = None) /\
  (forall dividends n, dividends <> [] -> (1 <= n)%nat ->
     exists s, BBMax.fetch_dividend_data dividends n = Some s).
Proof.
  split; [reflexivity|split; [|split; [reflexivity|]]].
  - intros sym p dividends price ch today H. unfold Beta.analyze_symbol.
    destruct (Beta.fetch_dividends_from_yfinance _ _) as [avg ldd].
    simpl in H. rewrite (proj2 (Qeq_bool_iff avg 0) H). reflexivity.
  - intros dividends n Hne Hn.
    destruct (fetch_dividend_data_shape dividends n Hne Hn) as (d & s & _ & F).
    eauto.
Qed.

Lemma zero_average_is_no_data_witness :
  Beta.analyze_symbol "NVDY" Sample.beta_params Sample.zero_dividends (Some 10%Q)
    Sample.puts_chain Sample.today = None /\
  exists s, BBMax.fetch_dividend_data Sample.zero_dividends 6 = Some s.
Proof.
  split.
  - apply (proj1 (proj2 zero_average_is_no_data)). vm_compute. reflexivity.
  - apply (proj2 (proj2 (proj2 zero_average_is_no_data))); [discriminate|lia].
Defined.

Lemma insert_oldest x m :
  (forall y, In y m -> fst x < fst y) -> insert BBMax.date_desc x m = m ++ [x].
Proof.
  induction m as [|y m IH]; intro H; simpl; [reflexivity|].
  unfold BBMax.date_desc at 1.
  rewrite (proj2 (Z.leb_gt _ _)) by (apply H; left; reflexivity).
  f_equal. apply IH. intros z Hz. apply H. right. exact Hz.
Qed.

(** On a series in ascending date order, as [ticker.dividends] delivers
    it, the descending sort reverses the series. *)
Lemma isort_ascending l :
  StronglySorted (fun a b => fst a < fst b) l -> isort BBMax.date_desc l = rev l.
Proof.
  induction 1 as [|x l _ IH Hall]; simpl; [reflexivity|].
  rewrite IH. apply insert_oldest. intros y Hy. apply in_rev in Hy.
  rewrite Forall_forall in Hall. auto.
Qed.

Lemma fold_Qplus_acc a l :
  (fold_right Qplus a l == a + fold_right Qplus 0 l)%Q.
Proof.
  induction l as [|x l IH]; simpl; [ring|]. rewrite IH. ring.
Qed.

Lemma fold_Qplus_rev l :
  (fold_right Qplus 0 (rev l) == fold_right Qplus 0 l)%Q.
Proof.
  induction l as [|x l IH]; simpl; [reflexivity|].
  rewrite fold_right_app. simpl. rewrite fold_Qplus_acc, IH. ring.
Qed.

Lemma date_desc_total a b :
  BBMax.date_desc a b = false -> BBMax.date_desc b a = true.
Proof. unfold BBMax.date_desc. rewrite Z.leb_gt, Z.leb_le. lia. Qed.

(** C9.  BBMax.py's [fetch_dividend_data] sorts the series itself: for a
    non-empty series and [n >= 1] the chosen records are [min n len]
    records no older than any other, the total, count and average are
    taken over them, and the last dividend date is the most recent date of
    the series.  BBMaxBeta.py's summarizer does not sort, but on a series
    in ascending date order, the order of [ticker.dividends], it computes
    the same average and the same last dividend date. *)
Theorem fetch_dividend_data_recent dividends n :
  dividends <> [] -> (1 <= n)%nat ->
  (exists total num last_date avg chosen rest,
    BBMax.fetch_dividend_data dividends n = Some (total, num, last_date, avg) /\
    Permutation dividends (chosen ++ rest) /\
    (forall a b, In a chosen -> In b rest -> fst b <= fst a) /\
    num = List.length chosen /\ num = Nat.min n (List.length dividends) /\
    total = fold_right Qplus 0%Q (map snd chosen) /\
    avg = (total / inject_Z (Z.of_nat num))%Q /\
    In last_date (map fst chosen) /\
    (forall a, In a dividends -> fst a <= last_date)) /\
  (StronglySorted (fun a b => fst a < fst b) dividends ->
   exists total num last_date avg,
    BBMax.fetch_dividend_data dividends n = Some (total, num, last_date, avg) /\
    (fst (Beta.fetch_dividends_from_yfinance dividends n) == avg)%Q /\
    snd (Beta.fetch_dividends_from_yfinance dividends n) = Some last_date).
Proof.
  intros Hne Hn. split.
  2:{
    intro Hasc. destruct dividends as [|x xs]; [congruence|].
    set (k := (List.length (x :: xs) - n)%nat).
    assert (Hs : firstn n (isort BBMax.date_desc (x :: xs)) = rev (skipn k (x :: xs))).
    { rewrite (isort_ascending _ Hasc). apply firstn_rev. }
    assert (Hsk : skipn k (x :: xs) <> []).
    { intro E. apply (f_equal (@List.length _)) in E.
      rewrite length_skipn in E. unfold k in E. cbn [List.length] in E. lia. }
    destruct (rev (skipn k (x :: xs))) as [|d t] eqn:Er.
    { apply (f_equal (@rev _)) in Er. rewrite rev_involutive in Er. contradiction. }
    assert (Hsplit : skipn k (x :: xs) = rev (d :: t)).
    { rewrite <- Er, rev_involutive. reflexivity. }
    exists (fold_right Qplus 0%Q (map snd (d :: t))), (List.length (d :: t)), (fst d),
      (fold_right Qplus 0%Q (map snd (d :: t)) /
       inject_Z (Z.of_nat (List.length (d :: t))))%Q.
    split; [unfold BBMax.fetch_dividend_data; rewrite Hs; try rewrite Er; reflexivity|].
    unfold Beta.fetch_dividends_from_yfinance, Beta.iloc_last, Beta.mean. cbn [fst snd].
    replace (Nat.eqb n 0) with false by (symmetry; apply Nat.eqb_neq; lia).
    fold k. rewrite Hsplit. split.
    - rewrite map_rev, fold_Qplus_rev, length_rev, length_map. reflexivity.
    - rewrite <- (firstn_skipn k (x :: xs)), Hsplit. simpl rev.
      rewrite app_assoc, last_last. reflexivity. }
  destruct (fetch_dividend_data_shape dividends n Hne Hn) as (d & s & E & F).
  pose proof (isort_perm _ BBMax.date_desc dividends) as HP. rewrite E in HP.
  assert (HS : StronglySorted (fun a b => BBMax.date_desc a b = true) (d :: s)).
  { rewrite <- E. apply Sorted_StronglySorted.
    - intros a b c. unfold BBMax.date_desc. rewrite !Z.leb_le. lia.
    - apply isort_sorted. exact date_desc_total. }
  do 6 eexists. split; [exact F|].
  split; [rewrite firstn_skipn; apply Permutation_sym; exact HP|].
  split.
  { intros a b Ha Hb.
    pose proof (StronglySorted_firstn_skipn _ n _ HS a b Ha Hb) as H.
    unfold BBMax.date_desc in H. apply Z.leb_le in H. exact H. }
  split; [reflexivity|].
  split; [rewrite length_firstn, (Permutation_length HP); reflexivity|].
  split; [reflexivity|]. split; [reflexivity|].
  split; [destruct n as [|n]; [lia|]; left; reflexivity|].
  intros a Ha. apply (Permutation_in _ (Permutation_sym HP)) in Ha.
  destruct Ha as [<-|Ha]; [lia|].
  inversion HS as [|? ? _ Hall]; subst.
  rewrite Forall_forall in Hall. specialize (Hall a Ha).
  unfold BBMax.date_desc in Hall. apply Z.leb_le in Hall. exact Hall.
Qed.

Lemma fetch_dividend_data_recent_witness :
  exists total num last_date avg,
    BBMax.fetch_dividend_data Sample.dividend_instants 2
      = Some (total, num, last_date, avg) /\
    num = 2%nat /\
    (forall a, In a Sample.dividend_instants -> fst a <= last_date) /\
    snd (Beta.fetch_dividends_from_yfinance Sample.dividend_instants 2) = Some last_date.
Proof.
  destruct (fetch_dividend_data_recent Sample.dividend_instants 2) as [H H'];
    [discriminate|lia|].
  destruct H as (total & num & last_date & avg & chosen & rest &
                 F & _ & _ & _ & Hn & _ & _ & _ & Hmax).
  destruct H' as (total' & num' & last_date' & avg' & F' & _ & Hl).
  { vm_compute. repeat constructor. }
  rewrite F in F'. injection F' as _ _ <- _.
  exists total, num, last_date, avg. split; [exact F|split; [|split; [exact Hmax|exact Hl]]].
  rewrite Hn. reflexivity.
Defined.

(** C1, as stated: BBMax.py's [fetch_put_option_data] marks a row when its
    last price is within the estimated future budget, so two rows of one
    expiration, both within budget, get different marks and no milestone
    date explains the mark. *)
Lemma bbmax_highlight_not_milestone :
  ~ exists m, forall r,
      In r (BBMax.fetch_put_option_data "NVDY" (BBMax.premium_budget (1#2) 25 6)
              (BBMax.strike_price_threshold 10 4) (1#2)
              (Sample.d 2025 1 30 * 86400 + 18000) 25 28 Sample.bbmax_chain) ->
      BBMax.b_highlight r =
        (qge_opt (BBMax.b_strike r) (inject_Z (BBMax.strike_price_threshold 10 4))
         && qle_opt (BBMax.b_last r) (BBMax.premium_budget (1#2) 25 6))
        && (m <=? BBMax.b_exp r).
Proof.
  intros [m H].
  remember (BBMax.fetch_put_option_data _ _ _ _ _ _ _ _) as rows eqn:E.
  vm_compute in E. subst rows.
  pose proof (H _ (or_introl eq_refl)) as H1.
  pose proof (H _ (or_intror (or_introl eq_refl))) as H2.
  simpl in H1, H2. congruence.
Qed.

(** C5, as stated: BBMax.py's select-all table keeps rows without the
    highlight mark. *)
Lemma bbmax_select_all_keeps_unhighlighted :
  exists r,
    In r (BBMax.main_select_all 6 25 6 4 [("NVDY", 28)]%string Sample.bbmax_feed) /\
    BBMax.b_highlight r = false.
Proof.
  remember (BBMax.main_select_all _ _ _ _ _ _) as out eqn:E.
  vm_compute in E. subst out.
  eexists. split; [right; left; reflexivity|reflexivity].
Qed.

(** C7, as stated: BBMax.py's select-all table orders rows of one
    expiration by strike price, not by last price: its two rows share the
    expiration 2025-03-21 and have last prices 0.10 then 0.30. *)
Lemma bbmax_select_all_not_by_last_price :
  ~ Sorted (fun a b => BBMax.b_exp b < BBMax.b_exp a \/
                       (BBMax.b_exp a = BBMax.b_exp b /\
                        exists x y, BBMax.b_last a = Some x /\ BBMax.b_last b = Some y /\
                                    (y <= x)%Q))
      (BBMax.main_select_all 6 25 6 4 [("NVDY", 28)]%string Sample.bbmax_feed).
Proof.
  remember (BBMax.main_select_all _ _ _ _ _ _) as out eqn:E.
  vm_compute in E. subst out.
  intro HS. inversion HS as [|? ? _ Hhd]; subst.
  inversion Hhd as [|? ? Hr]; subst. simpl in Hr.
  destruct Hr as [Hlt|(_ & x & y & Hx & Hy & Hle)]; [lia|].
  injection Hx as <-. injection Hy as <-. vm_compute in Hle. apply Hle. reflexivity.
Qed.

End BudgetProofs.

(** ** BBMaxBeta.py: more properties of [analyze_symbol] and its callers *)
Module BetaExtra.
Import Beta BetaProofs.

Lemma fetch_dividends_nonzero dividends n avg ldd :
  fetch_dividends_from_yfinance dividends n = (avg, ldd) ->
  Qeq_bool avg 0 = false -> exists ld, ldd = Some ld.
Proof.
  destruct dividends as [|x xs]; simpl; intro F; injection F as <- <-.
  - vm_compute. discriminate.
  - eauto.
Qed.

Lemma analyze_symbol_None_cases sym p dividends current_price ch today :
  analyze_symbol sym p dividends current_price ch today = None <->
  Qeq_bool (fst (fetch_dividends_from_yfinance dividends (num_dividends p))) 0 = true \/
  current_price = None \/
  exists price, current_price = Some price /\
  budget_filter (strike_price_threshold price (strike_price_relative p))
    (max_budget_for_extended_put_premium
       (fst (fetch_dividends_from_yfinance dividends (num_dividends p)))
       (percentage_for_single_premium p) (future_periods p))
    (fetch_put_options ch) = [].
Proof.
  destruct current_price as [price|];
    [|rewrite analyze_symbol_no_price; split; [intros _; right; left; reflexivity|reflexivity]].
  unfold analyze_symbol.
  destruct (fetch_dividends_from_yfinance dividends (num_dividends p)) as [avg ldd] eqn:F.
  simpl. destruct (Qeq_bool avg 0) eqn:Z0; [split; auto|].
  destruct (fetch_dividends_nonzero _ _ _ _ F Z0) as [ld ->].
  destruct (fetch_put_options ch) as [|x l].
  - split; [intros _; right; right; exists price; split; reflexivity|reflexivity].
  - destruct (budget_filter _ _ (x :: l)) eqn:Eb.
    + split; [intros _; right; right; exists price; split; [reflexivity|exact Eb]|reflexivity].
    + split; [discriminate|].
      intros [H|[H|(q & Hq & H)]]; try discriminate.
      injection Hq as <-. congruence.
Qed.

(** [analyze_symbol] returns no table exactly when the average dividend is
    zero, the close price is missing (empty or NaN 1-day history, both
    raising into the [except] branch), or no put passes the strike and
    last-price filters (an empty chain included). *)
Theorem analyze_symbol_None_iff sym p dividends current_price ch today :
  analyze_symbol sym p dividends current_price ch today = None <->
  Qeq_bool (fst (fetch_dividends_from_yfinance dividends (num_dividends p))) 0 = true \/
  current_price = None \/
  exists price, current_price = Some price /\
  budget_filter (strike_price_threshold price (strike_price_relative p))
    (max_budget_for_extended_put_premium
       (fst (fetch_dividends_from_yfinance dividends (num_dividends p)))
       (percentage_for_single_premium p) (future_periods p))
    (fetch_put_options ch) = [].
Proof. apply analyze_symbol_None_cases. Qed.

Lemma dropna_to_frame sym thr ext puts f :
  In f (filtered_puts sym thr ext puts) -> exists r, dropna f = Some r.
Proof.
  unfold filtered_puts, budget_filter. intro Hf.
  apply in_map_iff in Hf as ([e q] & <- & Hq).
  apply filter_In in Hq as [_ H2]. simpl in H2.
  unfold dropna, to_frame. simpl.
  destruct (lastPrice q); [eauto|discriminate].
Qed.

Lemma filter_all_true {A} (f : A -> bool) l :
  (forall x, In x l -> f x = true) -> filter f l = l.
Proof.
  induction l as [|x l IH]; simpl; intro H; [reflexivity|].
  rewrite H by auto. f_equal. auto.
Qed.

(** A table of [analyze_symbol] is never empty, and the NaN/NaT drop
    removes nothing: the table has one row per put that passes the strike
    and last-price filters (the last-price filter already rejects NaN). *)
Theorem analyze_symbol_row_count sym p dividends price ch today rows :
  analyze_symbol sym p dividends (Some price) ch today = Some rows ->
  rows <> [] /\
  List.length rows =
  List.length (budget_filter (strike_price_threshold price (strike_price_relative p))
    (max_budget_for_extended_put_premium
       (fst (fetch_dividends_from_yfinance dividends (num_dividends p)))
       (percentage_for_single_premium p) (future_periods p))
    (fetch_put_options ch)).
Proof.
  intro H.
  assert (Hne : budget_filter (strike_price_threshold price (strike_price_relative p))
    (max_budget_for_extended_put_premium
       (fst (fetch_dividends_from_yfinance dividends (num_dividends p)))
       (percentage_for_single_premium p) (future_periods p))
    (fetch_put_options ch) <> []).
  { intro E. assert (HN : analyze_symbol sym p dividends (Some price) ch today = None)
      by (apply analyze_symbol_None_cases; right; right; exists price; split; [reflexivity|exact E]).
    congruence. }
  apply analyze_symbol_Some in H as (avg & ld & Hf & ->).
  rewrite Hf in Hne |- *. simpl in Hne |- *.
  assert (Hlen : List.length (isort before (candidates sym
      (strike_price_threshold price (strike_price_relative p))
      (max_budget_for_extended_put_premium avg (percentage_for_single_premium p)
         (future_periods p)) (fetch_put_options ch)))
    = List.length (budget_filter (strike_price_threshold price (strike_price_relative p))
      (max_budget_for_extended_put_premium avg (percentage_for_single_premium p)
         (future_periods p)) (fetch_put_options ch))).
  { rewrite (Permutation_length (isort_perm _ before _)).
    unfold candidates. rewrite filter_map_length, filter_all_true.
    - unfold filtered_puts. apply length_map.
    - intros f Hin. destruct (dropna_to_frame _ _ _ _ _ Hin) as [r ->]. reflexivity. }
  rewrite length_map, Hlen. split; [|reflexivity].
  intro E. apply Hne. apply length_zero_iff_nil.
  rewrite <- Hlen. apply map_eq_nil in E. rewrite E. reflexivity.
Qed.

Lemma analyze_symbol_row_origin sym p dividends price ch today rows r :
  analyze_symbol sym p dividends (Some price) ch today = Some rows -> In r rows ->
  symbol (fst r) = sym /\
  exists q, In (exp (fst r), q) (fetch_put_options ch) /\
    strike q = c_strike (fst r) /\ lastPrice q = Some (last_price (fst r)).
Proof.
  intros H Hr. apply analyze_symbol_Some in H as (avg & ld & _ & ->).
  apply in_map_iff in Hr as (c & <- & Hc). simpl.
  apply (Permutation_in _ (isort_perm _ before _)) in Hc.
  unfold candidates, filtered_puts, budget_filter in Hc.
  apply In_filter_map in Hc as (f & Hf & Hd).
  apply in_map_iff in Hf as ([e q] & <- & Hq).
  apply filter_In in Hq as [Hq _]. apply filter_In in Hq as [Hq _].
  unfold dropna, to_frame in Hd. simpl in Hd.
  destruct (lastPrice q) as [l|] eqn:El; [|discriminate].
  injection Hd as <-. simpl. split; [reflexivity|]. exists q. auto.
Qed.

(** Every row of an [analyze_symbol] table is a put of the chain at its
    expiration, with the strike and the (defined) last price of that put,
    tagged with the symbol analysed. *)
Theorem analyze_symbol_rows_from_chain sym p dividends price ch today rows r :
  analyze_symbol sym p dividends (Some price) ch today = Some rows -> In r rows ->
  symbol (fst r) = sym /\
  exists q, In (exp (fst r), q) (fetch_put_options ch) /\
    strike q = c_strike (fst r) /\ lastPrice q = Some (last_price (fst r)).
Proof. apply analyze_symbol_row_origin. Qed.

Lemma flags_false (hd : Z) (l : list crow) :
  (forall r, In r l -> exp r < hd) ->
  filter snd (map (fun r => (r, hd <=? exp r)) l) = [] /\
  filter (fun r => negb (snd r)) (map (fun r => (r, hd <=? exp r)) l)
    = map (fun r => (r, hd <=? exp r)) l.
Proof.
  induction l as [|x l IH]; simpl; intro H; [auto|].
  assert (Hx : (hd <=? exp x) = false) by (apply Z.leb_gt, H; auto).
  rewrite Hx. simpl. destruct IH as [-> ->]; auto.
Qed.

(** In an [analyze_symbol] table the highlighted rows come first: the
    table is its highlighted rows followed by the others. *)
Theorem analyze_symbol_highlight_prefix sym p dividends price ch today rows :
  analyze_symbol sym p dividends (Some price) ch today = Some rows ->
  rows = filter snd rows ++ filter (fun r => negb (snd r)) rows.
Proof.
  intro H. apply analyze_symbol_Some in H as (avg & ld & _ & ->).
  set (hd := highlight_date 28 ld today (future_periods p)).
  assert (HS : StronglySorted (fun a b => before a b = true)
      (isort before (candidates sym (strike_price_threshold price (strike_price_relative p))
         (max_budget_for_extended_put_premium avg (percentage_for_single_premium p)
            (future_periods p)) (fetch_put_options ch)))).
  { apply Sorted_StronglySorted; [exact Transitive_before|].
    apply isort_sorted. exact before_total. }
  induction HS as [|x l Hs IH Hall]; simpl; [reflexivity|].
  destruct (hd <=? exp x) eqn:Ex; simpl.
  - f_equal. exact IH.
  - assert (Hlt : forall r, In r l -> exp r < hd).
    { intros r Hr. apply Z.leb_gt in Ex.
      apply (proj1 (Forall_forall _ l) Hall) in Hr. unfold before in Hr.
      apply orb_true_iff in Hr as [Hr|Hr].
      - apply Z.ltb_lt in Hr. lia.
      - apply andb_true_iff in Hr as [Hr _]. apply Z.eqb_eq in Hr. lia. }
    destruct (flags_false hd l Hlt) as [-> ->]. reflexivity.
Qed.

(** With at least one future period, a highlighted row of an
    [analyze_symbol] table expires strictly after [today]. *)
Theorem analyze_symbol_highlight_future sym p dividends price ch today rows r :
  1 <= future_periods p ->
  analyze_symbol sym p dividends (Some price) ch today = Some rows ->
  In r rows -> snd r = true -> today < exp (fst r).
Proof.
  intros Hp H Hr Hh. apply analyze_symbol_Some in H as (avg & ld & _ & ->).
  apply in_map_iff in Hr as (c & <- & _). simpl in Hh |- *.
  apply Z.leb_le in Hh. unfold highlight_date in Hh.
  destruct (next_expected_spec 28 ld today) as (k & _ & Hn & Ht & _); [lia|].
  rewrite Hn in Hh. nia.
Qed.

(** Every row of the consolidated table of the analyze-all branch is
    highlighted and belongs to one of the symbols analysed. *)
Theorem analyze_all_rows p feed today syms r :
  In r (analyze_all p feed today syms) ->
  snd r = true /\ In (symbol (fst r)) syms.
Proof.
  rewrite analyze_all_concat. intro Hr.
  apply (Permutation_in _ (isort_perm _ before_o _)) in Hr.
  apply in_concat in Hr as (l & Hl & Hr).
  apply in_map_iff in Hl as (s & <- & Hs).
  unfold symbol_highlights, highlighted_rows in Hr.
  destruct (fd_close (feed s)) as [cl|]; [|rewrite analyze_symbol_no_price in Hr; contradiction].
  destruct (analyze_symbol s _ _ _ _ _) as [rows|] eqn:E; [|contradiction].
  apply filter_In in Hr as [Hin Hh]. split; [exact Hh|].
  destruct (analyze_symbol_row_origin _ _ _ _ _ _ _ _ E Hin) as [-> _].
  exact Hs.
Qed.

(** Witnesses on the sample chain of NVDY. *)
Lemma analyze_symbol_row_count_witness :
  exists rows,
    analyze_symbol "NVDY" Sample.beta_params Sample.dividends (Some 10%Q) Sample.puts_chain
      Sample.today = Some rows /\
    rows <> [] /\
    List.length rows =
    List.length (budget_filter (strike_price_threshold 10 5)
      (max_budget_for_extended_put_premium
         (fst (fetch_dividends_from_yfinance Sample.dividends 6)) 25 3)
      (fetch_put_options Sample.puts_chain)).
Proof.
  pose (rows := match analyze_symbol "NVDY" Sample.beta_params Sample.dividends (Some 10%Q)
                        Sample.puts_chain Sample.today with
                | Some r => r | None => [] end).
  assert (H : analyze_symbol "NVDY" Sample.beta_params Sample.dividends (Some 10%Q)
                Sample.puts_chain Sample.today = Some rows) by reflexivity.
  exists rows. split; [exact H|].
  exact (analyze_symbol_row_count _ _ _ _ _ _ _ H).
Defined.

Lemma analyze_symbol_rows_from_chain_witness :
  exists rows r,
    analyze_symbol "NVDY" Sample.beta_params Sample.dividends (Some 10%Q) Sample.puts_chain
      Sample.today = Some rows /\
    In r rows /\ symbol (fst r) = "NVDY"%string /\
    exists q, In (exp (fst r), q) (fetch_put_options Sample.puts_chain) /\
      strike q = c_strike (fst r) /\ lastPrice q = Some (last_price (fst r)).
Proof.
  pose (rows := match analyze_symbol "NVDY" Sample.beta_params Sample.dividends (Some 10%Q)
                        Sample.puts_chain Sample.today with
                | Some r => r | None => [] end).
  assert (H : analyze_symbol "NVDY" Sample.beta_params Sample.dividends (Some 10%Q)
                Sample.puts_chain Sample.today = Some rows) by reflexivity.
  pose (r := hd ({| exp := 0; c_strike := None; last_price := 0; symbol := "" |}, false)
               rows).
  assert (Hr : In r rows) by (vm_compute; left; reflexivity).
  exists rows, r. split; [exact H|split; [exact Hr|]].
  exact (analyze_symbol_rows_from_chain _ _ _ _ _ _ _ _ H Hr).
Defined.

Lemma analyze_symbol_highlight_prefix_witness :
  exists rows,
    analyze_symbol "NVDY" Sample.beta_params Sample.dividends (Some 10%Q) Sample.puts_chain
      Sample.today = Some rows /\
    filter snd rows <> [] /\ filter (fun r => negb (snd r)) rows <> [] /\
    rows = filter snd rows ++ filter (fun r => negb (snd r)) rows.
Proof.
  pose (rows := match analyze_symbol "NVDY" Sample.beta_params Sample.dividends (Some 10%Q)
                        Sample.puts_chain Sample.today with
                | Some r => r | None => [] end).
  assert (H : analyze_symbol "NVDY" Sample.beta_params Sample.dividends (Some 10%Q)
                Sample.puts_chain Sample.today = Some rows) by reflexivity.
  exists rows. split; [exact H|].
  split; [vm_compute; discriminate|split; [vm_compute; discriminate|]].
  exact (analyze_symbol_highlight_prefix _ _ _ _ _ _ _ H).
Defined.

Lemma analyze_symbol_highlight_future_witness :
  exists rows r,
    analyze_symbol "NVDY" Sample.beta_params Sample.dividends (Some 10%Q) Sample.puts_chain
      Sample.today = Some rows /\
    In r rows /\ snd r = true /\ Sample.today < exp (fst r).
Proof.
  pose (rows := match analyze_symbol "NVDY" Sample.beta_params Sample.dividends (Some 10%Q)
                        Sample.puts_chain Sample.today with
                | Some r => r | None => [] end).
  assert (H : analyze_symbol "NVDY" Sample.beta_params Sample.dividends (Some 10%Q)
                Sample.puts_chain Sample.today = Some rows) by reflexivity.
  pose (r := hd ({| exp := 0; c_strike := None; last_price := 0; symbol := "" |}, false)
               rows).
  assert (Hr : In r rows) by (vm_compute; left; reflexivity).
  assert (Hh : snd r = true) by (vm_compute; reflexivity).
  exists rows, r. split; [exact H|split; [exact Hr|split; [exact Hh|]]].
  apply (analyze_symbol_highlight_future "NVDY" Sample.beta_params Sample.dividends 10%Q
           Sample.puts_chain Sample.today rows r); [vm_compute; discriminate|exact H|exact Hr|exact Hh].
Defined.

Lemma analyze_all_rows_witness :
  exists r,
    In r (analyze_all Sample.beta_params Sample.feed Sample.today ["TSLY"; "NVDY"; "CONY"]%string) /\
    snd r = true /\ In (symbol (fst r)) ["TSLY"; "NVDY"; "CONY"]%string.
Proof.
  pose (out := analyze_all Sample.beta_params Sample.feed Sample.today
                 ["TSLY"; "NVDY"; "CONY"]%string).
  pose (r := hd ({| exp := 0; c_strike := None; last_price := 0; symbol := "" |}, false) out).
  assert (Hr : In r out) by (vm_compute; left; reflexivity).
  exists r. split; [exact Hr|].
  exact (analyze_all_rows _ _ _ _ _ Hr).
Defined.

End BetaExtra.

(** ** BBMaxBeta.py: the sidebar and the search button *)
Module BetaAppExtra.
Import Beta BetaApp.

Lemma filter_headers (f h : string -> bool) (G : list (string * list string)) :
  (forall g, h ("--- " ++ g ++ " ---")%string = true) ->
  (forall s, In s (flat_map snd G) -> h s = false) ->
  filter (fun s => f s && negb (h s))
    (flat_map (fun '(g, syms) => ("--- " ++ g ++ " ---")%string :: syms) G)
  = filter f (flat_map snd G).
Proof.
  intros Hh. induction G as [|[g syms] G IH]; cbn [flat_map filter snd]; intro Hs;
    [reflexivity|].
  rewrite <- app_comm_cons. cbn [filter].
  rewrite Hh, andb_false_r, !filter_app. f_equal.
  - apply filter_ext_in. intros s Hin. rewrite Hs by (apply in_or_app; auto).
    apply andb_true_r.
  - apply IH. intros s Hin. apply Hs, in_or_app. auto.
Qed.

Lemma all_symbols_no_header s : In s all_symbols -> String.prefix "---" s = false.
Proof.
  intro Hs.
  assert (H : forallb (fun s => negb (String.prefix "---" s)) all_symbols = true)
    by reflexivity.
  rewrite forallb_forall in H. apply H in Hs. destruct (String.prefix "---" s); auto.
Qed.

Lemma filtered_symbols_search search :
  search <> EmptyString ->
  filtered_symbols search = filter (contains (py_upper search)) all_symbols.
Proof.
  intro Hne. destruct search as [|c s]; [congruence|].
  unfold filtered_symbols. simpl py_upper. cbv zeta.
  apply filter_headers; [reflexivity|apply all_symbols_no_header].
Qed.

(** With a non-empty search text the selectbox offers exactly the symbols
    of the groups, in group order, whose name contains the upper-cased
    search text; no group header is offered. *)
Theorem filtered_symbols_nonempty search :
  search <> EmptyString ->
  filtered_symbols search = filter (contains (py_upper search)) all_symbols.
Proof. apply filtered_symbols_search. Qed.

Lemma py_index_nth s l d : In s l -> nth (py_index s l) l d = s.
Proof.
  induction l as [|y l IH]; simpl; [contradiction|].
  intros [<-|Hin].
  - rewrite String.eqb_refl. reflexivity.
  - destruct (String.eqb s y) eqn:E; [apply String.eqb_eq in E; auto|auto].
Qed.

Lemma selectbox_default_in options s :
  In s options -> selectbox_default options (Some s) = Some s.
Proof.
  intro Hin. destruct options as [|o os]; [contradiction|].
  unfold selectbox_default, selectbox_index.
  assert (He : existsb (String.eqb s) (o :: os) = true).
  { apply existsb_exists. exists s. split; [exact Hin|apply String.eqb_refl]. }
  rewrite He. f_equal. apply py_index_nth. exact Hin.
Qed.

Lemma all_symbols_grouped s : In s all_symbols -> In s grouped_symbols.
Proof.
  unfold all_symbols, grouped_symbols. intro Hs.
  apply in_flat_map in Hs as ([g syms] & Hg & Hs).
  apply in_flat_map. exists (g, syms). split; [exact Hg|right; exact Hs].
Qed.

(** The remembered symbol stays preselected: when the search box is empty
    or the remembered symbol contains the upper-cased search text, the
    selectbox shows it first. *)
Theorem selectbox_keeps_remembered search s :
  In s all_symbols ->
  (search = EmptyString \/ contains (py_upper search) s = true) ->
  selectbox_default (filtered_symbols search) (Some s) = Some s.
Proof.
  intros Hs Hq. apply selectbox_default_in.
  destruct search as [|c t].
  - apply all_symbols_grouped. exact Hs.
  - rewrite filtered_symbols_search by discriminate.
    apply filter_In. split; [exact Hs|].
    destruct Hq as [Hq|Hq]; [discriminate|exact Hq].
Qed.

(** [last_selected_symbol] is never a group header or empty: a run keeps
    it that way, and a run that selects a symbol remembers it. *)
Theorem remember_selection_invariant last_selected selected_symbol :
  (forall s, last_selected = Some s -> s <> EmptyString /\ String.prefix "---" s = false) ->
  (forall s, remember_selection last_selected selected_symbol = Some s ->
     s <> EmptyString /\ String.prefix "---" s = false) /\
  (forall s, selected_symbol = Some s -> s <> EmptyString ->
     String.prefix "---" s = false ->
     remember_selection last_selected selected_symbol = Some s).
Proof.
  intro Hinv. split.
  - intros s. unfold remember_selection.
    destruct selected_symbol as [t|]; [|apply Hinv].
    destruct (String.eqb t "") eqn:E1, (String.prefix "---" t) eqn:E2; simpl;
      try apply Hinv.
    intro H. injection H as <-. split; [|exact E2].
    intro Ht. rewrite Ht in E1. discriminate.
  - intros s -> Hne Hh. unfold remember_selection.
    destruct (String.eqb s "") eqn:E1.
    + apply String.eqb_eq in E1. contradiction.
    + rewrite Hh. reflexivity.
Qed.

(** A click on the search button analyses one symbol only when the box for
    all symbols is unchecked and the selection is a symbol: never an
    empty selection or a group header. *)
Theorem search_clicked_single p feed today selected_symbol analyze_all_checked s r :
  search_clicked p feed today selected_symbol analyze_all_checked = SingleSymbol s r ->
  analyze_all_checked = false /\ selected_symbol = Some s /\
  s <> EmptyString /\ String.prefix "---" s = false /\
  r = analyze_symbol s p (fd_dividends (feed s)) (fd_close (feed s))
        (fd_chain (feed s)) today.
Proof.
  unfold search_clicked.
  destruct analyze_all_checked.
  - rewrite andb_false_r. simpl.
    destruct (analyze_all p feed today all_symbols); discriminate.
  - rewrite andb_true_r. destruct selected_symbol as [t|]; [|discriminate].
    destruct (String.eqb t "") eqn:E1; [discriminate|].
    destruct (String.prefix "---" t) eqn:E2; [discriminate|].
    intro H. injection H as <- <-. repeat split; auto.
    intro Ht. rewrite Ht in E1. discriminate.
Qed.

Lemma filtered_symbols_nonempty_witness :
  filtered_symbols "ny" = filter (contains (py_upper "ny")) all_symbols /\
  filtered_symbols "ny" = ["MRNY"; "CONY"; "ABNY"]%string.
Proof.
  split.
  - apply filtered_symbols_nonempty. discriminate.
  - vm_compute. reflexivity.
Defined.

Lemma selectbox_keeps_remembered_witness :
  selectbox_default (filtered_symbols "ny") (Some "CONY"%string) = Some "CONY"%string /\
  selectbox_default (filtered_symbols "ny") (Some "TSLY"%string) = Some "MRNY"%string.
Proof.
  split.
  - apply selectbox_keeps_remembered.
    + vm_compute. repeat first [left; reflexivity|right].
    + right. vm_compute. reflexivity.
  - vm_compute. reflexivity.
Defined.

Lemma remember_selection_invariant_witness :
  remember_selection None (Some "NVDY"%string) = Some "NVDY"%string /\
  remember_selection (Some "NVDY"%string) (Some "--- Group B ---"%string)
    = Some "NVDY"%string.
Proof.
  split.
  - apply (proj2 (remember_selection_invariant None (Some "NVDY"%string)
                    (fun s H => match H with eq_refl => I end)));
      [reflexivity|discriminate|reflexivity].
  - vm_compute. reflexivity.
Defined.

Lemma search_clicked_single_witness :
  exists r,
    search_clicked Sample.beta_params Sample.feed Sample.today (Some "NVDY"%string) false
      = SingleSymbol "NVDY" r /\
    r = analyze_symbol "NVDY" Sample.beta_params Sample.dividends (Some 10%Q) Sample.puts_chain
          Sample.today.
Proof.
  pose (r := analyze_symbol "NVDY" Sample.beta_params Sample.dividends (Some 10%Q) Sample.puts_chain
               Sample.today).
  assert (H : search_clicked Sample.beta_params Sample.feed Sample.today
                (Some "NVDY"%string) false = SingleSymbol "NVDY" r) by reflexivity.
  exists r. split; [exact H|].
  destruct (search_clicked_single _ _ _ _ _ _ _ H) as (_ & _ & _ & _ & Hr).
  exact Hr.
Defined.

End BetaAppExtra.

(** ** BBMax.py: the sidebar, the health recovery graph and the put table *)
Module BBMaxExtra.
Import BBMax BBMaxApp BBMaxFacts.

Lemma sidebar_runs_nth restored runs i select_all widget :
  nth_error runs i = Some (select_all, widget) ->
  nth_error (sidebar_runs restored runs) i =
    Some (if select_all then None
          else match i with
               | O => match restored with Some v => v | None => widget end
               | S j => match nth_error runs j with
                        | Some (true, w) => w
                        | _ => widget
                        end
               end).
Proof.
  revert restored i. induction runs as [|[b0 w0] rest IH]; intros restored i H;
    [destruct i; discriminate|].
  destruct i as [|j]; simpl in H |- *.
  - injection H as <- <-. destruct b0; simpl; [reflexivity|].
    destruct restored; reflexivity.
  - destruct b0, restored; simpl; rewrite (IH _ j H); destruct j; reflexivity.
Qed.

(** Over successive runs of [display_sidebar] (starting without a saved
    symbol), a run with [Select All Symbols] checked returns no symbol; a
    run with it unchecked returns the selectbox value, except right after
    a checked run, where it returns the value the selectbox had then. *)
Theorem sidebar_runs_restore runs i select_all widget :
  nth_error runs i = Some (select_all, widget) ->
  nth_error (sidebar_runs None runs) i =
    Some (if select_all then None
          else match i with
               | O => widget
               | S j => match nth_error runs j with
                        | Some (true, w) => w
                        | _ => widget
                        end
               end).
Proof.
  intro H. rewrite (sidebar_runs_nth None runs i select_all widget H).
  destruct i; reflexivity.
Qed.

Lemma filter_map_le {A B} (f : A -> option B) l :
  (List.length (filter_map f l) <= List.length l)%nat.
Proof.
  induction l as [|x l IH]; simpl; [lia|]. destruct (f x); simpl; lia.
Qed.

Lemma filter_map_lt {A B} (f : A -> option B) l x :
  In x l -> f x = None -> (List.length (filter_map f l) < List.length l)%nat.
Proof.
  induction l as [|y l IH]; simpl; [contradiction|].
  intros [<-|Hin] Hx.
  - rewrite Hx. pose proof (filter_map_le f l). lia.
  - specialize (IH Hin Hx). destruct (f y); simpl; lia.
Qed.

Lemma min_date_exists (l : list (Z * Q)) :
  l <> [] -> exists x, In x l /\ forall y, In y l -> fst x <= fst y.
Proof.
  induction l as [|a l IH]; intro Hne; [congruence|].
  destruct l as [|b l].
  - exists a. split; [left; reflexivity|]. intros y [<-|[]]. lia.
  - destruct IH as (m & Hm & Hmin); [discriminate|].
    destruct (Z.le_gt_cases (fst a) (fst m)).
    + exists a. split; [left; reflexivity|].
      intros y [<-|Hy]; [lia|]. specialize (Hmin y Hy). lia.
    + exists m. split; [right; exact Hm|].
      intros y [<-|Hy]; [lia|]. auto.
Qed.

Lemma prior_date_cons chosen d current :
  prior_date (d :: chosen) current =
  if fst d <? current
  then match prior_date chosen current with
       | None => Some (fst d)
       | Some a => Some (Z.max a (fst d))
       end
  else prior_date chosen current.
Proof. unfold prior_date. simpl. destruct (fst d <? current); reflexivity. Qed.

Lemma prior_date_None chosen current :
  (forall y, In y chosen -> current <= fst y) -> prior_date chosen current = None.
Proof.
  induction chosen as [|y l IH]; intro H; [reflexivity|].
  rewrite prior_date_cons.
  assert (Hy : (fst y <? current) = false) by (apply Z.ltb_ge, H; left; reflexivity).
  rewrite Hy. apply IH. intros z Hz. apply H. right. exact Hz.
Qed.

Lemma prior_date_None_inv chosen current y :
  prior_date chosen current = None -> In y chosen -> current <= fst y.
Proof.
  induction chosen as [|z l IH]; intros H Hy; [contradiction|].
  rewrite prior_date_cons in H.
  destruct (fst z <? current) eqn:Ez.
  - destruct (prior_date l current); discriminate.
  - destruct Hy as [<-|Hy]; [apply Z.ltb_ge; exact Ez|auto].
Qed.

Lemma prior_date_Some chosen current prior :
  prior_date chosen current = Some prior ->
  (exists a, In (prior, a) chosen) /\ prior < current /\
  (forall y, In y chosen -> fst y < current -> fst y <= prior).
Proof.
  revert prior. induction chosen as [|[t a] l IH]; intros prior H; [discriminate|].
  rewrite prior_date_cons in H. simpl in H.
  destruct (t <? current) eqn:Et.
  - apply Z.ltb_lt in Et.
    destruct (prior_date l current) as [q|] eqn:Eq.
    + injection H as <-. destruct (IH q eq_refl) as ((b & Hb) & Hq & Hmax).
      split; [|split].
      * destruct (Z.max_spec q t) as [[_ ->]|[_ ->]];
          [exists a; left; reflexivity|exists b; right; exact Hb].
      * lia.
      * intros y [<-|Hy] Hlt; simpl; [lia|]. specialize (Hmax y Hy Hlt). lia.
    + injection H as <-. split; [exists a; left; reflexivity|split; [exact Et|]].
      intros y [<-|Hy] Hlt; [simpl; lia|].
      apply prior_date_None_inv with (y := y) in Eq; [lia|exact Hy].
  - destruct (IH prior H) as ((b & Hb) & Hq & Hmax).
    split; [exists b; right; exact Hb|split; [exact Hq|]].
    intros y [<-|Hy] Hlt; [simpl in Hlt; apply Z.ltb_ge in Et; lia|auto].
Qed.

Lemma chosen_length dividends n :
  List.length (firstn n (isort date_desc dividends)) = Nat.min n (List.length dividends).
Proof.
  rewrite length_firstn, (Permutation_length (isort_perm _ date_desc dividends)).
  reflexivity.
Qed.

(** The health recovery graph has fewer points than the dividends it
    looks at: the oldest of the [num_past_dividends] most recent dividends
    has no earlier one and is always skipped. *)
Theorem recovery_data_length historical dividends num_past_dividends :
  (0 < num_past_dividends)%nat -> dividends <> [] ->
  (List.length (recovery_data historical dividends num_past_dividends)
   < Nat.min num_past_dividends (List.length dividends))%nat.
Proof.
  intros Hn Hne. unfold recovery_data. rewrite <- chosen_length.
  set (chosen := firstn num_past_dividends (isort date_desc dividends)).
  assert (Hc : chosen <> []).
  { intro E. apply (f_equal (@List.length _)) in E.
    unfold chosen in E. rewrite chosen_length in E. simpl in E.
    destruct dividends; [congruence|]. simpl in E. lia. }
  destruct (min_date_exists chosen Hc) as (x & Hx & Hmin).
  apply (filter_map_lt _ _ x Hx).
  unfold recovery_point. rewrite prior_date_None; [reflexivity|exact Hmin].
Qed.

Lemma recovery_point_spec historical chosen dividend st t p3 :
  recovery_point historical chosen dividend = Some (st, t, p3) ->
  t = fst dividend /\
  exists prior P1 P2,
    prior_date chosen t = Some prior /\
    first_at_or_after historical prior = Some P2 /\
    asof historical (prior - two_days) = Some P1 /\
    asof historical (t - two_days) = Some p3 /\
    st = recovery_status P1 P2 p3.
Proof.
  unfold recovery_point.
  destruct (prior_date chosen (fst dividend)) as [prior|] eqn:Ep; [|discriminate].
  destruct (first_at_or_after historical prior) as [P2|] eqn:E2; [|discriminate].
  destruct (asof historical (prior - two_days)) as [P1|] eqn:E1; [|discriminate].
  destruct (asof historical (fst dividend - two_days)) as [P3|] eqn:E3; [|discriminate].
  intro H. injection H as <- <- <-. split; [reflexivity|].
  exists prior, P1, P2. auto.
Qed.

(** Each point of the health recovery graph sits at one of the
    [num_past_dividends] most recent dividends [t], has as price [P3] the
    last close at or before [t - 2 days], and compares it with [P1], the
    last close at or before two days before the latest earlier dividend
    among them ([prior]), and [P2], the first close on or after [prior]:
    Surpass when [P3 > P1], else Recovered when [P3 > P2], else Decline. *)
Theorem recovery_data_point historical dividends num_past_dividends st t p3 :
  In (st, t, p3) (recovery_data historical dividends num_past_dividends) ->
  (exists a, In (t, a) (firstn num_past_dividends (isort date_desc dividends))) /\
  exists prior a P1 P2,
    In (prior, a) (firstn num_past_dividends (isort date_desc dividends)) /\
    prior < t /\
    (forall y, In y (firstn num_past_dividends (isort date_desc dividends)) ->
       fst y < t -> fst y <= prior) /\
    asof historical (t - two_days) = Some p3 /\
    asof historical (prior - two_days) = Some P1 /\
    first_at_or_after historical prior = Some P2 /\
    st = (if Qlt_le_dec P1 p3 then Surpass
          else if Qlt_le_dec P2 p3 then Recovered else Decline).
Proof.
  unfold recovery_data. intro H.
  apply In_filter_map in H as ([t0 a0] & Hin & Hp).
  apply recovery_point_spec in Hp as (Ht & prior & P1 & P2 & Hpr & H2 & H1 & H3 & Hst).
  simpl in Ht. subst t0.
  split; [exists a0; exact Hin|].
  destruct (prior_date_Some _ _ _ Hpr) as ((a & Ha) & Hlt & Hmax).
  exists prior, a, P1, P2. repeat split; auto.
Qed.

Lemma StronglySorted_firstn {A} (R : A -> A -> Prop) n l :
  StronglySorted R l -> StronglySorted R (firstn n l).
Proof.
  revert l. induction n as [|n IH]; intros l H; [constructor|].
  destruct l as [|x l]; [constructor|].
  apply StronglySorted_inv in H as [Hs Hall]. simpl. constructor; [auto|].
  apply Forall_forall. intros y Hy. apply (proj1 (Forall_forall _ _) Hall).
  rewrite <- (firstn_skipn n l). apply in_or_app. left. exact Hy.
Qed.

Lemma StronglySorted_filter_map {A B} (R : A -> A -> Prop) (S : B -> B -> Prop)
  (f : A -> option B) l :
  (forall x y x' y', f x = Some x' -> f y = Some y' -> R x y -> S x' y') ->
  StronglySorted R l -> StronglySorted S (filter_map f l).
Proof.
  intros Hf. induction 1 as [|x l Hs IH Hall]; simpl; [constructor|].
  destruct (f x) as [x'|] eqn:Ex; [|exact IH].
  constructor; [exact IH|]. apply Forall_forall. intros y' Hy'.
  apply In_filter_map in Hy' as (y & Hy & Ey).
  apply (Hf x y); auto. apply (proj1 (Forall_forall _ _) Hall). exact Hy.
Qed.

(** The points of the health recovery graph come newest first. *)
Theorem recovery_data_newest_first historical dividends num_past_dividends :
  Sorted (fun a b => snd (fst b) <= snd (fst a))
    (recovery_data historical dividends num_past_dividends).
Proof.
  apply StronglySorted_Sorted. unfold recovery_data.
  apply (StronglySorted_filter_map (fun a b => date_desc a b = true)).
  - intros x y [[sx tx] px] [[sy ty] py] Hx Hy Hxy.
    apply recovery_point_spec in Hx as [-> _]. apply recovery_point_spec in Hy as [-> _].
    unfold date_desc in Hxy. apply Z.leb_le in Hxy. exact Hxy.
  - apply StronglySorted_firstn, Sorted_StronglySorted.
    + intros a b c. unfold date_desc. rewrite !Z.leb_le. lia.
    + apply isort_sorted. intros a b. unfold date_desc. rewrite Z.leb_gt, Z.leb_le. lia.
Qed.


(** Every row of [fetch_put_option_data] is a put of the chain, tagged
    with the symbol, whose strike is defined and at or above the strike
    threshold and whose last price is defined and within the premium
    budget. *)
Theorem fetch_put_option_data_rows sym budget thr avg ldd pct freq ch r :
  In r (fetch_put_option_data sym budget thr avg ldd pct freq ch) ->
  b_symbol r = sym /\
  (exists puts, In (b_exp r, puts) ch /\
     In {| strike := b_strike r; lastPrice := b_last r |} puts) /\
  (exists k l, b_strike r = Some k /\ (inject_Z thr <= k)%Q /\
     b_last r = Some l /\ (l <= budget)%Q).
Proof.
  intro H. apply put_row_origin in H as (e & puts & q & Hch & Hq & H1 & H2 & ->).
  simpl. split; [reflexivity|split].
  - exists puts. split; [exact Hch|]. destruct q. exact Hq.
  - unfold qge_opt in H1. unfold qle_opt in H2.
    destruct (strike q) as [k|]; [|discriminate].
    destruct (lastPrice q) as [l|]; [|discriminate].
    apply Qle_bool_iff in H1, H2. exists k, l. auto.
Qed.

(** With a positive frequency, a put expiring less than one dividend
    frequency (in days) after the last dividend date counts no future
    dividend.  With a non-negative average dividend and budget percentage
    its estimated dividends are then at most 0, and it is highlighted only
    when its last price is at most 0. *)
Theorem fetch_put_option_data_early_expiry sym budget thr avg ldd pct freq ch r :
  0 < freq -> (0 <= avg)%Q -> 0 <= pct ->
  In r (fetch_put_option_data sym budget thr avg ldd pct freq ch) ->
  b_exp r * seconds_per_day < ldd + freq * seconds_per_day ->
  b_occurrences r <= 0 /\ (b_estimated r <= 0)%Q /\
  (b_highlight r = true -> exists l, b_last r = Some l /\ (l <= 0)%Q).
Proof.
  intros Hf Ha Hp H. apply put_row_origin in H as (e & puts & q & _ & _ & _ & _ & ->).
  simpl. intros He.
  set (td := (e * seconds_per_day - ldd) / seconds_per_day) in *.
  assert (Htd : td < freq).
  { unfold td, seconds_per_day in *. apply Z.div_lt_upper_bound; lia. }
  assert (Hocc : td / freq <= 0).
  { apply Z.lt_succ_r. apply Z.div_lt_upper_bound; lia. }
  assert (Hocc' : (inject_Z (td / freq) <= 0)%Q).
  { change 0%Q with (inject_Z 0). rewrite <- Zle_Qle. exact Hocc. }
  assert (Hest : (inject_Z (td / freq) * avg <= 0)%Q).
  { rewrite <- (Qmult_0_l avg). apply Qmult_le_compat_r; auto. }
  split; [exact Hocc|split; [exact Hest|]].
  intro Hh.
  unfold qle_opt in Hh. destruct (lastPrice q) as [l|]; [|discriminate].
  exists l. split; [reflexivity|]. apply Qle_bool_iff in Hh.
  eapply Qle_trans; [exact Hh|].
  assert (Hpct : (0 <= inject_Z pct / inject_Z 100)%Q).
  { unfold Qdiv. apply Qmult_le_0_compat; [|vm_compute; discriminate].
    unfold Qle. simpl. lia. }
  rewrite <- (Qmult_0_l (inject_Z pct / inject_Z 100)).
  apply Qmult_le_compat_r; [exact Hest|exact Hpct].
Qed.

(** Every row of the select-all table comes from a symbol of the CSV file
    with a dividend summary and a close price: it is a row of
    [fetch_put_option_data] for that symbol, its frequency, its premium
    budget and strike threshold.  Symbols without dividends or without a
    close price contribute nothing. *)
Theorem main_select_all_rows num_past_dividends budget_percentage multiplier
  strike_adjustment csv feed r :
  In r (main_select_all num_past_dividends budget_percentage multiplier
          strike_adjustment csv feed) ->
  exists dividend_frequency total num last_dividend_date avg day_close_price,
    In (b_symbol r, dividend_frequency) csv /\
    fetch_dividend_data (fd_dividends (feed (b_symbol r))) num_past_dividends
      = Some (total, num, last_dividend_date, avg) /\
    fd_close (feed (b_symbol r)) = Some day_close_price /\
    In r (fetch_put_option_data (b_symbol r)
            (premium_budget avg budget_percentage multiplier)
            (strike_price_threshold day_close_price strike_adjustment)
            avg last_dividend_date budget_percentage dividend_frequency
            (fd_chain (feed (b_symbol r)))).
Proof.
  unfold main_select_all. intro H.
  apply (Permutation_in _ (isort_perm _ before_b _)) in H.
  apply in_flat_map in H as ([sym freq] & Hcsv & Hr).
  unfold select_all_opportunities in Hr.
  destruct (fetch_dividend_data (fd_dividends (feed sym)) num_past_dividends)
    as [[[[total num] ldd] avg]|] eqn:Ed; [|contradiction].
  destruct (fd_close (feed sym)) as [close|] eqn:Ec; [|contradiction].
  pose proof Hr as Hs. apply put_row_origin in Hs as (e & puts & q & _ & _ & _ & _ & Hrq).
  assert (Hsym : b_symbol r = sym) by (rewrite Hrq; reflexivity).
  rewrite Hsym. exists freq, total, num, ldd, avg, close. auto.
Qed.



(** Witnesses on the sample fund. *)
Lemma sidebar_runs_restore_witness :
  nth_error (sidebar_runs None [(true, Some "NVDY"); (false, Some "TSLY");
                                (false, Some "TSLY")]%string) 1
    = Some (Some "NVDY"%string) /\
  nth_error (sidebar_runs None [(true, Some "NVDY"); (false, Some "TSLY");
                                (false, Some "TSLY")]%string) 2
    = Some (Some "TSLY"%string).
Proof.
  split.
  - exact (sidebar_runs_restore
             [(true, Some "NVDY"); (false, Some "TSLY"); (false, Some "TSLY")]%string
             1 false (Some "TSLY"%string) eq_refl).
  - exact (sidebar_runs_restore
             [(true, Some "NVDY"); (false, Some "TSLY"); (false, Some "TSLY")]%string
             2 false (Some "TSLY"%string) eq_refl).
Defined.

Lemma recovery_data_length_witness :
  (List.length (recovery_data Sample.closes Sample.dividend_instants 6) < 4)%nat /\
  List.length (recovery_data Sample.closes Sample.dividend_instants 6) = 3%nat.
Proof.
  split.
  - apply (recovery_data_length Sample.closes Sample.dividend_instants 6);
      [lia|discriminate].
  - vm_compute. reflexivity.
Defined.

Lemma recovery_data_point_witness :
  exists st t p3,
    In (st, t, p3) (recovery_data Sample.closes Sample.dividend_instants 6) /\
    st = Recovered /\
    asof Sample.closes (t - two_days) = Some p3.
Proof.
  pose (pt := nth 1 (recovery_data Sample.closes Sample.dividend_instants 6)
                (Decline, 0, 0%Q)).
  assert (Hin : In (fst (fst pt), snd (fst pt), snd pt)
                  (recovery_data Sample.closes Sample.dividend_instants 6))
    by (vm_compute; right; left; reflexivity).
  exists (fst (fst pt)), (snd (fst pt)), (snd pt).
  split; [exact Hin|split; [vm_compute; reflexivity|]].
  destruct (recovery_data_point _ _ _ _ _ _ Hin)
    as (_ & prior & a & P1 & P2 & _ & _ & _ & H3 & _).
  exact H3.
Defined.

Lemma fetch_put_option_data_rows_witness :
  exists r,
    In r (fetch_put_option_data "NVDY" (3#4) 6 (1#2) (Sample.d 2025 1 30 * 86400 + 18000)
            25 28 Sample.bbmax_chain) /\
    b_symbol r = "NVDY"%string /\
    exists k l, b_strike r = Some k /\ (inject_Z 6 <= k)%Q /\
      b_last r = Some l /\ (l <= 3#4)%Q.
Proof.
  pose (r := hd {| b_exp := 0; b_strike := None; b_last := None; b_symbol := "";
                   b_highlight := false; b_occurrences := 0; b_estimated := 0 |}
               (fetch_put_option_data "NVDY" (3#4) 6 (1#2)
                  (Sample.d 2025 1 30 * 86400 + 18000) 25 28 Sample.bbmax_chain)).
  assert (Hr : In r (fetch_put_option_data "NVDY" (3#4) 6 (1#2)
                       (Sample.d 2025 1 30 * 86400 + 18000) 25 28 Sample.bbmax_chain))
    by (vm_compute; left; reflexivity).
  exists r. split; [exact Hr|].
  destruct (fetch_put_option_data_rows _ _ _ _ _ _ _ _ _ Hr) as (Hs & _ & Hk).
  split; [exact Hs|exact Hk].
Defined.

Lemma fetch_put_option_data_early_expiry_witness :
  exists r,
    In r (fetch_put_option_data "NVDY" (3#4) 6 (1#2) (Sample.d 2025 1 30 * 86400 + 18000)
            25 28 Sample.early_chain) /\
    b_highlight r = true /\
    b_occurrences r <= 0 /\ exists l, b_last r = Some l /\ (l <= 0)%Q.
Proof.
  pose (r := hd {| b_exp := 0; b_strike := None; b_last := None; b_symbol := "";
                   b_highlight := false; b_occurrences := 0; b_estimated := 0 |}
               (fetch_put_option_data "NVDY" (3#4) 6 (1#2)
                  (Sample.d 2025 1 30 * 86400 + 18000) 25 28 Sample.early_chain)).
  assert (Hr : In r (fetch_put_option_data "NVDY" (3#4) 6 (1#2)
                       (Sample.d 2025 1 30 * 86400 + 18000) 25 28 Sample.early_chain))
    by (vm_compute; left; reflexivity).
  assert (Hh : b_highlight r = true) by (vm_compute; reflexivity).
  destruct (fetch_put_option_data_early_expiry "NVDY" (3#4) 6 (1#2)
              (Sample.d 2025 1 30 * 86400 + 18000) 25 28 Sample.early_chain r)
    as (Hocc & _ & Hlast); [lia|vm_compute; discriminate|lia|exact Hr|vm_compute; reflexivity|].
  exists r. split; [exact Hr|split; [exact Hh|split; [exact Hocc|exact (Hlast Hh)]]].
Defined.

Lemma main_select_all_rows_witness :
  exists r,
    In r (main_select_all 6 25 6 4 [("NVDY", 28)]%string Sample.bbmax_feed) /\
    exists dividend_frequency, In (b_symbol r, dividend_frequency) [("NVDY", 28)]%string.
Proof.
  pose (r := hd {| b_exp := 0; b_strike := None; b_last := None; b_symbol := "";
                   b_highlight := false; b_occurrences := 0; b_estimated := 0 |}
               (main_select_all 6 25 6 4 [("NVDY", 28)]%string Sample.bbmax_feed)).
  assert (Hr : In r (main_select_all 6 25 6 4 [("NVDY", 28)]%string Sample.bbmax_feed))
    by (vm_compute; left; reflexivity).
  exists r. split; [exact Hr|].
  destruct (main_select_all_rows _ _ _ _ _ _ _ Hr) as (f & _ & _ & _ & _ & _ & Hc & _).
  exists f. exact Hc.
Defined.

End BBMaxExtra.
